(** * eks-node-explorer: the dashboard state machine of [pkg/model/uimodel.go]

    A shallow embedding of the pagination / selection / sort / render /
    dispatch logic of [UIModel], and the properties of it that the
    specification states.

    Conventions.
    - Go's [int] is a 64-bit two's-complement integer: it is a [Z] and every
      arithmetic operation wraps ([GoInt]).
    - A run-time panic is an outcome of its own ([Panic]), threaded through
      the code by a small error monad.
    - A Go slice is a list; its capacity is taken to be its length.
    - Go's [float64] is the kernel's binary64 [float].
    - Third-party packages (bubbles/paginator, natsort, sort, fmt, lipgloss,
      tabwriter, clipboard) are not part of the repository.  What the code
      needs of their text output is a field of [Theme]; what it needs of
      their behaviour is a field of [Libs] or a definition of [Paginator]. *)

From Stdlib Require Import ZArith String Ascii List Bool Lia Floats.
From Stdlib Require Import Permutation.
From stdpp Require Import gmap strings sorting.

Local Open Scope string_scope.
Local Open Scope Z_scope.

(* ===================================================================== *)
(** ** Go's [int] *)
(* ===================================================================== *)

Module GoInt.

Definition minInt : Z := -9223372036854775808.
Definition maxInt : Z := 9223372036854775807.

(** The value an unbounded result takes once stored in an [int]. *)
Definition wrap (z : Z) : Z :=
  (z + 9223372036854775808) mod 18446744073709551616 - 9223372036854775808.

Definition inRange (z : Z) : Prop := minInt <= z <= maxInt.

Definition add (a b : Z) : Z := wrap (a + b).
Definition sub (a b : Z) : Z := wrap (a - b).
Definition mul (a b : Z) : Z := wrap (a * b).

End GoInt.

(* ===================================================================== *)
(** ** Panics *)
(* ===================================================================== *)

Inductive PanicReason : Type :=
| IntegerDivideByZero
| IndexOutOfRange
| SliceBoundsOutOfRange
| ClipboardInitFailed (err : string).

Inductive Result (A : Type) : Type :=
| Ok (a : A)
| Panic (p : PanicReason).

Arguments Ok {A} a.
Arguments Panic {A} p.

#[global] Instance Result_ret : MRet Result := fun A a => Ok a.

#[global] Instance Result_bind : MBind Result := fun A B k r =>
  match r with
  | Ok a => k a
  | Panic p => Panic p
  end.

(** Integer quotient and remainder: truncated toward zero, a panic on a
    zero divisor. *)
Definition quo (a b : Z) : Result Z :=
  if b =? 0 then Panic IntegerDivideByZero else Ok (GoInt.wrap (Z.quot a b)).

Definition rem (a b : Z) : Result Z :=
  if b =? 0 then Panic IntegerDivideByZero else Ok (Z.rem a b).

(** [s[low:high]] and [s[i]] on a slice.  A slice is modelled by the list
    of its elements, so its capacity is taken to be its length: Go checks
    [high] against the capacity, and a slice expression that reaches beyond
    the length but stays within the capacity, which Go allows, is a panic
    here. *)
Definition slice {A : Type} (s : list A) (low high : Z) : Result (list A) :=
  if (0 <=? low) && (low <=? high) && (high <=? Z.of_nat (List.length s))
  then Ok (firstn (Z.to_nat (high - low)) (skipn (Z.to_nat low) s))
  else Panic SliceBoundsOutOfRange.

Definition index {A : Type} (s : list A) (i : Z) : Result A :=
  if 0 <=? i then
    match nth_error s (Z.to_nat i) with
    | Some a => Ok a
    | None => Panic IndexOutOfRange
    end
  else Panic IndexOutOfRange.

(* ===================================================================== *)
(** ** Strings *)
(* ===================================================================== *)

Definition NL : string := String (ascii_of_nat 10) EmptyString.
Definition TAB : string := String (ascii_of_nat 9) EmptyString.

(** [strings.Count(s, "\n")]. *)
Fixpoint countNewlines (s : string) : Z :=
  match s with
  | EmptyString => 0
  | String c s' =>
      (if Ascii.eqb c (ascii_of_nat 10) then 1 else 0) + countNewlines s'
  end.

(** [strings.HasSuffix]. *)
Definition HasSuffix (s suffix : string) : bool :=
  (String.length suffix <=? String.length s)%nat &&
  String.eqb
    (substring (String.length s - String.length suffix)
               (String.length suffix) s)
    suffix.

(** [s[:len(s)-4]]. *)
Definition dropLast4 (s : string) : string :=
  substring 0 (String.length s - 4) s.

(* ===================================================================== *)
(** ** The data the core reads *)
(* ===================================================================== *)

(** A resource quantity, seen through the two methods the code calls. *)
Record Quantity : Type := {
  AsApproximateFloat64 : float;
  QuantityString : string
}.

(** The zero value a map lookup yields for a missing resource. *)
Definition zeroQuantity : Quantity :=
  {| AsApproximateFloat64 := 0%float; QuantityString := "0" |}.

Definition resourceOf (l : gmap string Quantity) (res : string) : Quantity :=
  default zeroQuantity (l !! res).

(** Modelled from the spec: [Node] is declared in a file of the repository
    that is not part of the sources at hand; its fields are those the data
    model lists (identity, instance type, optional price, allocatable and
    used quantities, flags, not-ready and creation instants, labels, pod
    count).  Instants are integers. *)
Record Node : Type := {
  Name : string;
  InstanceID : string;
  InstanceType : string;
  Price : float;
  HasPrice : bool;
  Allocatable : gmap string Quantity;
  Used : gmap string Quantity;
  IsOnDemand : bool;
  IsSpot : bool;
  IsFargate : bool;
  Cordoned : bool;
  Deleting : bool;
  Ready : bool;
  NotReadyTime : Z;
  Created : Z;
  Labels : gmap string string;
  NumPods : Z
}.

(** Modelled from the spec: [Stats], the snapshot handed to the core. *)
Record Stats : Type := {
  NumNodes : Z;
  Nodes : list Node;
  AllocatableResources : gmap string Quantity;
  UsedResources : gmap string Quantity;
  TotalPods : Z;
  PodsPending : Z;
  PodsRunning : Z;
  BoundPodCount : Z;
  TotalPrice : float
}.

(** Modelled from the spec: [Cluster] holds the tracked resource names and
    supplies the current snapshot on demand. *)
Record Cluster : Type := {
  resources : list string;
  snapshot : Stats
}.

Definition Cluster_Stats (c : Cluster) : Stats := snapshot c.

(** What the code takes from packages outside the repository. *)
Class Libs : Type := {
  (** [natsort.Compare]: the first string precedes the second. *)
  natsort_Compare : string -> string -> bool;
  (** [sort.Slice] with the given [less]. *)
  sort_Slice : (Node -> Node -> bool) -> list Node -> list Node;
  (** [Node.ComputeLabel]: the computed-label fallback. *)
  ComputeLabel : Node -> string -> string;
  (** [fmt.Sprintf(format, arg)] with one operand. *)
  fmt_Sprintf : string -> string -> string;
  (** The error [clipboard.Init] returns, if any. *)
  clipboard_Init : option string
}.

(* ===================================================================== *)
(** ** NodeSorter *)
(* ===================================================================== *)

Section NodeSorter.
Context {L : Libs}.

Definition labelValue (n : Node) (label : string) : string :=
  match Labels n !! label with
  | Some v => v
  | None => ComputeLabel n label
  end.

(** The closure returned for the key [creation]. *)
Definition creationLess (sortOrder : bool -> bool) (lhs rhs : Node) : bool :=
  if Created lhs =? Created rhs
  then sortOrder (natsort_Compare (Name lhs) (Name rhs))
  else sortOrder (Created rhs <? Created lhs).

(** The closure returned for any other key. *)
Definition labelLess (sortOrder : bool -> bool) (nodeSort : string)
           (lhs rhs : Node) : bool :=
  let lhsLabel := labelValue lhs nodeSort in
  let rhsLabel := labelValue rhs nodeSort in
  if String.eqb lhsLabel rhsLabel
  then sortOrder (natsort_Compare (InstanceID lhs) (InstanceID rhs))
  else sortOrder (natsort_Compare lhsLabel rhsLabel).

(** The direction parsed off the specification: the [sortOrder] closure
    and what is left of [nodeSort] once the suffixes are cut. *)
Definition sortDirection (nodeSort : string) : (bool -> bool) * string :=
  let sortOrder := fun b : bool => b in
  let nodeSort :=
    if HasSuffix nodeSort "=asc" then dropLast4 nodeSort else nodeSort in
  if HasSuffix nodeSort "=dsc"
  then (negb, dropLast4 nodeSort)
  else (sortOrder, nodeSort).

(** The closure chosen for the key that is left. *)
Definition comparatorFor (sortOrder : bool -> bool) (nodeSort : string)
  : Node -> Node -> bool :=
  if String.eqb nodeSort "creation"
  then creationLess sortOrder
  else labelLess sortOrder nodeSort.

Definition makeNodeSorter (nodeSort : string) : Node -> Node -> bool :=
  let '(sortOrder, nodeSort) := sortDirection nodeSort in
  comparatorFor sortOrder nodeSort.

End NodeSorter.

(* ===================================================================== *)
(** ** Events and commands *)
(* ===================================================================== *)

(** The messages [Update] receives; [otherMsg] stands for any message type
    the type switch does not name. *)
Inductive Msg : Type :=
| WindowSizeMsg (Width Height : Z)
| KeyMsg (key : string)
| execFinishedMsg (err : option string)
| tickMsg
| otherMsg.

(** The commands [Update] hands back to the event loop. *)
Inductive Cmd : Type :=
| nilCmd
| tickCmd
| Quit
| ExecProcess (name : string) (args : list string)
              (callback : option string -> Msg).

(** What a call does to the outside world before it returns. *)
Inductive Effect : Type :=
| ClipboardWrite (text : string).

(* ===================================================================== *)
(** ** PaginationEngine *)
(* ===================================================================== *)

(** Modelled from the spec: the paginator is a package outside the
    repository.  Section 4.2 gives what it computes: the total page count is
    the ceiling of [totalNodes / capacity], the visible slice starts at
    [page * capacity] and ends at [min(start + capacity, totalNodes)];
    the page moves one step back or forth within [0, totalPages - 1].
    The arithmetic is Go's: the ceiling is the truncated quotient, plus one
    when the remainder is positive, and a zero divisor panics. *)
Module Paginator.

Record Model : Type := {
  Page : Z;
  PerPage : Z;
  TotalPages : Z
}.

Definition New : Model := {| Page := 0; PerPage := 1; TotalPages := 1 |}.

Definition setPage (m : Model) (p : Z) : Model :=
  {| Page := p; PerPage := PerPage m; TotalPages := TotalPages m |}.

Definition setPerPage (m : Model) (n : Z) : Model :=
  {| Page := Page m; PerPage := n; TotalPages := TotalPages m |}.

Definition setTotalPages (m : Model) (n : Z) : Model :=
  {| Page := Page m; PerPage := PerPage m; TotalPages := n |}.

Definition SetTotalPages (m : Model) (items : Z) : Result Model :=
  if items <? 1 then Ok m
  else
    n ← quo items (PerPage m);
    r ← rem items (PerPage m);
    let n := if 0 <? r then GoInt.add n 1 else n in
    Ok (setTotalPages m n).

Definition GetSliceBounds (m : Model) (length : Z) : Z * Z :=
  let start := GoInt.mul (Page m) (PerPage m) in
  let end_ :=
    Z.min (GoInt.add (GoInt.mul (Page m) (PerPage m)) (PerPage m)) length in
  (start, end_).

Definition OnLastPage (m : Model) : bool :=
  Page m =? GoInt.sub (TotalPages m) 1.

Definition PrevPage (m : Model) : Model :=
  if 0 <? Page m then setPage m (GoInt.sub (Page m) 1) else m.

Definition NextPage (m : Model) : Model :=
  if negb (OnLastPage m) then setPage m (GoInt.add (Page m) 1) else m.

Definition nextPageKeys : list string := ["pgdown"; "right"; "l"].
Definition prevPageKeys : list string := ["pgup"; "left"; "h"].

Definition keyMatches (k : string) (keys : list string) : bool :=
  existsb (String.eqb k) keys.

Definition Update (m : Model) (msg : Msg) : Model * Cmd :=
  match msg with
  | KeyMsg k =>
      if keyMatches k nextPageKeys then (NextPage m, nilCmd)
      else if keyMatches k prevPageKeys then (PrevPage m, nilCmd)
      else (m, nilCmd)
  | _ => (m, nilCmd)
  end.

End Paginator.

(* ===================================================================== *)
(** ** The model *)
(* ===================================================================== *)

Inductive Colour : Type := green | yellow | red.

(** The text primitives of the packages that draw: styles, the gauge,
    number formatting, the tab writer, the page indicator and the help
    line.  The core only concatenates what they return. *)
Class Theme : Type := {
  selectedStyle : string -> string;
  deselectedStyle : string -> string;
  style : Colour -> string -> string;
  (** [progress.ViewAs], under the current [ShowPercentage]. *)
  progress_ViewAs : bool -> float -> string;
  (** [%d]. *)
  fmt_d : Z -> string;
  (** ["%0.1f%%"]. *)
  fmt_pct : float -> string;
  (** ["/$%0.4f"]. *)
  fmt_price : float -> string;
  (** [fmt.Fprintf(w, format)] without operands. *)
  fmt_Fprintf0 : string -> string;
  (** The English message printer's [%d]. *)
  enPrinter_d : Z -> string;
  (** ["$%0.3f/hour | $%0.3f/month"]. *)
  enPrinter_price : float -> float -> string;
  (** [duration.HumanDuration(time.Since(t))]. *)
  HumanDurationSince : Z -> string;
  (** What the column writer emits when flushed with the cells written. *)
  tabwriter_Flush : string -> string;
  paginator_View : Paginator.Model -> string;
  (** [help.View], from the width and the description of the enter key. *)
  help_View : Z -> string -> string
}.

Record UIModel : Type := {
  progress_ShowPercentage : bool;
  cluster : Cluster;
  extraLabels : list string;
  paginator : Paginator.Model;
  help_Width : Z;
  keys_EnterHelp : string;
  height : Z;
  nodeSorter : Node -> Node -> bool;
  current : Z;
  start : Z;
  end_ : Z;
  err : option string;
  copyInstanceID : bool;
  nodeExec : string
}.

Definition set_ShowPercentage (u : UIModel) (v : bool) : UIModel :=
  {| progress_ShowPercentage := v; cluster := cluster u;
     extraLabels := extraLabels u; paginator := paginator u;
     help_Width := help_Width u; keys_EnterHelp := keys_EnterHelp u;
     height := height u; nodeSorter := nodeSorter u; current := current u;
     start := start u; end_ := end_ u; err := err u;
     copyInstanceID := copyInstanceID u; nodeExec := nodeExec u |}.

Definition set_cluster (u : UIModel) (v : Cluster) : UIModel :=
  {| progress_ShowPercentage := progress_ShowPercentage u; cluster := v;
     extraLabels := extraLabels u; paginator := paginator u;
     help_Width := help_Width u; keys_EnterHelp := keys_EnterHelp u;
     height := height u; nodeSorter := nodeSorter u; current := current u;
     start := start u; end_ := end_ u; err := err u;
     copyInstanceID := copyInstanceID u; nodeExec := nodeExec u |}.

Definition set_paginator (u : UIModel) (v : Paginator.Model) : UIModel :=
  {| progress_ShowPercentage := progress_ShowPercentage u;
     cluster := cluster u;
     extraLabels := extraLabels u; paginator := v;
     help_Width := help_Width u; keys_EnterHelp := keys_EnterHelp u;
     height := height u; nodeSorter := nodeSorter u; current := current u;
     start := start u; end_ := end_ u; err := err u;
     copyInstanceID := copyInstanceID u; nodeExec := nodeExec u |}.

Definition set_size (u : UIModel) (w h : Z) : UIModel :=
  {| progress_ShowPercentage := progress_ShowPercentage u;
     cluster := cluster u;
     extraLabels := extraLabels u; paginator := paginator u;
     help_Width := w; keys_EnterHelp := keys_EnterHelp u;
     height := h; nodeSorter := nodeSorter u; current := current u;
     start := start u; end_ := end_ u; err := err u;
     copyInstanceID := copyInstanceID u; nodeExec := nodeExec u |}.

Definition set_EnterHelp (u : UIModel) (v : string) : UIModel :=
  {| progress_ShowPercentage := progress_ShowPercentage u;
     cluster := cluster u;
     extraLabels := extraLabels u; paginator := paginator u;
     help_Width := help_Width u; keys_EnterHelp := v;
     height := height u; nodeSorter := nodeSorter u; current := current u;
     start := start u; end_ := end_ u; err := err u;
     copyInstanceID := copyInstanceID u; nodeExec := nodeExec u |}.

Definition set_current (u : UIModel) (v : Z) : UIModel :=
  {| progress_ShowPercentage := progress_ShowPercentage u;
     cluster := cluster u;
     extraLabels := extraLabels u; paginator := paginator u;
     help_Width := help_Width u; keys_EnterHelp := keys_EnterHelp u;
     height := height u; nodeSorter := nodeSorter u; current := v;
     start := start u; end_ := end_ u; err := err u;
     copyInstanceID := copyInstanceID u; nodeExec := nodeExec u |}.

Definition set_bounds (u : UIModel) (se : Z * Z) : UIModel :=
  {| progress_ShowPercentage := progress_ShowPercentage u;
     cluster := cluster u;
     extraLabels := extraLabels u; paginator := paginator u;
     help_Width := help_Width u; keys_EnterHelp := keys_EnterHelp u;
     height := height u; nodeSorter := nodeSorter u;
     current := current u;
     start := fst se; end_ := snd se; err := err u;
     copyInstanceID := copyInstanceID u; nodeExec := nodeExec u |}.

Definition set_err (u : UIModel) (v : option string) : UIModel :=
  {| progress_ShowPercentage := progress_ShowPercentage u;
     cluster := cluster u;
     extraLabels := extraLabels u; paginator := paginator u;
     help_Width := help_Width u; keys_EnterHelp := keys_EnterHelp u;
     height := height u; nodeSorter := nodeSorter u;
     current := current u;
     start := start u; end_ := end_ u; err := v;
     copyInstanceID := copyInstanceID u; nodeExec := nodeExec u |}.

(* ===================================================================== *)
(** ** RenderPipeline, SelectionState, ActionDispatcher, EventLoop *)
(* ===================================================================== *)

Section UI.
Context {L : Libs} {T : Theme}.

(** [UIModel.Stats]: the snapshot, its nodes sorted by [nodeSorter]. *)
Definition UIModel_Stats (u : UIModel) : Stats :=
  let stats := Cluster_Stats (cluster u) in
  {| NumNodes := NumNodes stats;
     Nodes := sort_Slice (nodeSorter u) (Nodes stats);
     AllocatableResources := AllocatableResources stats;
     UsedResources := UsedResources stats;
     TotalPods := TotalPods stats;
     PodsPending := PodsPending stats;
     PodsRunning := PodsRunning stats;
     BoundPodCount := BoundPodCount stats;
     TotalPrice := TotalPrice stats |}.

Definition SelectedNode (u : UIModel) : Result Node :=
  visible ← slice (Nodes (UIModel_Stats u)) (start u) (end_ u);
  index visible (current u).

Definition SelectedNodeName (u : UIModel) : Result string :=
  n ← SelectedNode u;
  let nodeName := Name n in
  if copyInstanceID u
  then n' ← SelectedNode u; Ok (InstanceID n')
  else Ok nodeName.

Definition Keys (u : UIModel) : UIModel :=
  let enterDesc := "copy node name" in
  if copyInstanceID u then
    let enterDesc := "copy instance id" in
    let enterDesc :=
      if negb (String.eqb (nodeExec u) "")
      then enterDesc +:+ " (run NODE_EXEC cmd)" else enterDesc in
    set_EnterHelp u enterDesc
  else u.

(** The gauge ratio of one resource of one node. *)
Definition nodePct (usedRes allocatableRes : Quantity) : float :=
  let pct :=
    (AsApproximateFloat64 usedRes / AsApproximateFloat64 allocatableRes)%float in
  if (AsApproximateFloat64 allocatableRes =? 0)%float then 0%float else pct.

Definition computeType (n : Node) : string :=
  if IsOnDemand n then TAB +:+ "On-Demand"
  else if IsSpot n then TAB +:+ "Spot"
  else if IsFargate n then TAB +:+ "Fargate"
  else TAB +:+ "-".

Definition nodeStatus (n : Node) : string :=
  if Cordoned n && Deleting n then TAB +:+ "Cordoned/Deleting"
  else if Deleting n then TAB +:+ "Deleting"
  else if Cordoned n then TAB +:+ "Cordoned"
  else TAB +:+ "-".

Definition nodeReadiness (n : Node) : string :=
  if Ready n then TAB +:+ "Ready"
  else TAB +:+ "NotReady/" +:+ HumanDurationSince (NotReadyTime n).

Fixpoint extraLabelCells (n : Node) (labels : list string) : string :=
  match labels with
  | [] => ""
  | label :: rest => TAB +:+ labelValue n label +:+ extraLabelCells n rest
  end.

Fixpoint extraLabelBlanks (labels : list string) : string :=
  match labels with
  | [] => ""
  | _ :: rest => TAB +:+ extraLabelBlanks rest
  end.

(** The loop of [writeNodeInfo] over the resources; [firstLine] is the
    flag the loop clears after its first pass. *)
Fixpoint writeNodeLines (u : UIModel) (n : Node) (nodeIndex : Z)
         (firstLine : bool) (resources : list string) : string :=
  match resources with
  | [] => ""
  | res :: rest =>
      let pct := nodePct (resourceOf (Used n) res)
                         (resourceOf (Allocatable n) res) in
      let gauge := progress_ViewAs (progress_ShowPercentage u) pct in
      let line :=
        if firstLine then
          let priceLabel :=
            if negb (HasPrice n) then "" else fmt_price (Price n) in
          let styled :=
            if nodeIndex =? current u
            then selectedStyle (Name n) else deselectedStyle (Name n) in
          fmt_Fprintf0 styled
            +:+ TAB +:+ res +:+ TAB +:+ gauge +:+ TAB
            +:+ "(" +:+ fmt_d (NumPods n) +:+ " pods)" +:+ TAB
            +:+ InstanceType n +:+ priceLabel
            +:+ computeType n +:+ nodeStatus n +:+ nodeReadiness n
            +:+ extraLabelCells n (extraLabels u)
        else
          " " +:+ TAB +:+ res +:+ TAB +:+ gauge
            +:+ TAB +:+ TAB +:+ TAB +:+ TAB +:+ TAB
            +:+ extraLabelBlanks (extraLabels u) in
      line +:+ NL +:+ writeNodeLines u n nodeIndex false rest
  end.

Definition writeNodeInfo (u : UIModel) (n : Node) (resources : list string)
           (nodeIndex : Z) : string :=
  writeNodeLines u n nodeIndex true resources.

(** The utilization percentage of one resource of the cluster. *)
Definition pctUsedOf (used allocatable : Quantity) : float :=
  if negb (AsApproximateFloat64 allocatable =? 0)%float
  then (100 * (AsApproximateFloat64 used / AsApproximateFloat64 allocatable))%float
  else 0%float.

(** The colour of a percentage. *)
Definition pctColour (pctUsed : float) : Colour :=
  if (90 <? pctUsed)%float then green
  else if (60 <? pctUsed)%float then yellow
  else red.

(** The loop of [writeClusterSummary]; every pass clears
    [progress.ShowPercentage] before it draws. *)
Fixpoint writeSummaryLines (u : UIModel) (stats : Stats) (firstLine : bool)
         (resources : list string) : UIModel * string :=
  match resources with
  | [] => (u, "")
  | res :: rest =>
      let allocatable := resourceOf (AllocatableResources stats) res in
      let used := resourceOf (UsedResources stats) res in
      let pctUsed := pctUsedOf used allocatable in
      let pctUsedStr := style (pctColour pctUsed) (fmt_pct pctUsed) in
      let u := set_ShowPercentage u false in
      let monthlyPrice := (TotalPrice stats * (365 * 24) / 12)%float in
      let clusterPrice := enPrinter_price (TotalPrice stats) monthlyPrice in
      let gauge :=
        progress_ViewAs (progress_ShowPercentage u) (pctUsed / 100)%float in
      let line :=
        if firstLine then
          enPrinter_d (NumNodes stats) +:+ " nodes" +:+ TAB
            +:+ "(" +:+ QuantityString used +:+ "/"
            +:+ QuantityString allocatable +:+ ")" +:+ TAB
            +:+ pctUsedStr +:+ TAB +:+ res +:+ TAB +:+ gauge +:+ TAB
            +:+ clusterPrice +:+ NL
        else
          " " +:+ TAB +:+ QuantityString used +:+ "/"
            +:+ QuantityString allocatable +:+ TAB
            +:+ pctUsedStr +:+ TAB +:+ res +:+ TAB +:+ gauge +:+ TAB +:+ NL in
      let '(u, more) := writeSummaryLines u stats false rest in
      (u, line +:+ more)
  end.

Definition writeClusterSummary (u : UIModel) (resources : list string)
           (stats : Stats) : UIModel * string :=
  writeSummaryLines u stats true resources.

(** [computeItemsPerPage]; [b] is the text built so far. *)
Definition computeItemsPerPage (u : UIModel) (nodes : list Node)
           (b : string) : Result Z :=
  n0 ← index nodes 0;
  let buf := writeNodeInfo u n0 (resources (cluster u)) 0 in
  let headerLines := GoInt.add (countNewlines b) 2 in
  let nodeLines := countNewlines buf in
  let nodeLines := if nodeLines =? 0 then 1 else nodeLines in
  q ← quo (GoInt.sub (height u) headerLines) nodeLines;
  Ok (GoInt.sub q 1).

Definition podsLine (stats : Stats) : string :=
  enPrinter_d (TotalPods stats) +:+ " pods ("
    +:+ enPrinter_d (PodsPending stats) +:+ " pending "
    +:+ enPrinter_d (PodsRunning stats) +:+ " running "
    +:+ enPrinter_d (BoundPodCount stats) +:+ " bound)" +:+ NL.

(** The text [View] has built when it measures the page capacity. *)
Definition viewHeader (u : UIModel) : string :=
  let stats := UIModel_Stats u in
  let '(_, summary) :=
    writeClusterSummary u (resources (cluster u)) stats in
  (tabwriter_Flush summary +:+ podsLine stats) +:+ NL.

(** The capacity [View] computes for the frame it is drawing. *)
Definition viewCapacity (u : UIModel) : Result Z :=
  computeItemsPerPage (set_ShowPercentage u true)
                      (Nodes (UIModel_Stats u)) (viewHeader u).

(** The page and selection repair of [View], from the capacity on. *)
Definition repair (u : UIModel) (stats : Stats) (perPage : Z)
  : Result UIModel :=
  let p := Paginator.setPerPage (paginator u) perPage in
  p ← Paginator.SetTotalPages p (NumNodes stats);
  let p :=
    if NumNodes stats <? GoInt.mul (Paginator.Page p) (Paginator.PerPage p)
    then Paginator.setPage p (GoInt.sub (Paginator.TotalPages p) 1)
    else p in
  let u := set_paginator u p in
  let u := set_bounds u (Paginator.GetSliceBounds p (NumNodes stats)) in
  let u :=
    if GoInt.sub (end_ u) (start u) <=? current u
    then set_current u (GoInt.sub (GoInt.sub (end_ u) (start u)) 1)
    else u in
  Ok u.

(** The nodes [View] draws a block for. *)
Definition visibleRows (u : UIModel) (stats : Stats) : Result (list Node) :=
  if (0 <=? start u) && (start u <=? end_ u)
  then slice (Nodes stats) (start u) (end_ u)
  else Ok [].

Fixpoint writeRows (u : UIModel) (i : Z) (rows : list Node) : string :=
  match rows with
  | [] => ""
  | n :: rest =>
      writeNodeInfo u n (resources (cluster u)) i +:+ writeRows u (i + 1) rest
  end.

(** The part of [View] that runs when the snapshot has nodes; [b] is the
    text built so far. *)
Definition viewNodes (u : UIModel) (stats : Stats) (b : string)
  : Result (UIModel * string) :=
  perPage ← computeItemsPerPage u (Nodes stats) b;
  u ← repair u stats perPage;
  rows ← visibleRows u stats;
  let b := b +:+ tabwriter_Flush (writeRows u 0 rows)
             +:+ paginator_View (paginator u) +:+ NL in
  let u := Keys u in
  Ok (u, b +:+ help_View (help_Width u) (keys_EnterHelp u)).

Definition View (u : UIModel) : Result (UIModel * string) :=
  let stats := UIModel_Stats u in
  let '(u, summary) :=
    writeClusterSummary u (resources (cluster u)) stats in
  let b := tabwriter_Flush summary in
  let u := set_ShowPercentage u true in
  let b := b +:+ podsLine stats in
  if NumNodes stats =? 0 then
    let b := b +:+ NL +:+ "Waiting for update or no nodes found..." +:+ NL
               +:+ paginator_View (paginator u) +:+ NL in
    let u := Keys u in
    Ok (u, b +:+ help_View (help_Width u) (keys_EnterHelp u))
  else
    let b := b +:+ NL in
    viewNodes u stats b.

Definition execFinished (err : option string) : Msg := execFinishedMsg err.

Definition openNode (u : UIModel) (msg : Msg) : Result (Cmd * list Effect) :=
  nodeName ← SelectedNodeName u;
  copyOnly ←
    (if String.eqb (nodeExec u) "" then Ok true
     else if String.eqb nodeName "" then Ok true
     else n ← SelectedNode u; Ok (IsFargate n));
  if copyOnly : bool then
    match clipboard_Init with
    | Some e => Panic (ClipboardInitFailed e)
    | None =>
        let '(_, cmd) := Paginator.Update (paginator u) msg in
        Ok (cmd, [ClipboardWrite nodeName])
    end
  else
    let nodeExecCmd := fmt_Sprintf (nodeExec u) nodeName in
    Ok (ExecProcess "/bin/sh" ["-c"; nodeExecCmd] execFinished, []).

(** The tail of [Update]: the message goes on to the paginator. *)
Definition forward (u : UIModel) (msg : Msg)
  : Result (UIModel * Cmd * list Effect) :=
  let '(p, cmd) := Paginator.Update (paginator u) msg in
  Ok (set_paginator u p, cmd, []).

(** The body of the case ["up"] of [Update]. *)
Definition moveUp (u : UIModel) : UIModel :=
  if 0 <? current u then set_current u (GoInt.sub (current u) 1)
  else if (current u =? 0) && (0 <? Paginator.Page (paginator u))
  then
    let u := set_paginator u (Paginator.PrevPage (paginator u)) in
    let u := set_bounds u
      (Paginator.GetSliceBounds (paginator u)
         (NumNodes (UIModel_Stats u))) in
    set_current u (GoInt.sub (GoInt.sub (end_ u) (start u)) 1)
  else u.

(** The body of the case ["down"] of [Update]. *)
Definition moveDown (u : UIModel) : UIModel :=
  if current u <? GoInt.sub (GoInt.sub (end_ u) (start u)) 1
  then set_current u (GoInt.add (current u) 1)
  else if (current u =? GoInt.sub (GoInt.sub (end_ u) (start u)) 1)
          && negb (Paginator.Page (paginator u)
                   =? GoInt.sub (Paginator.TotalPages (paginator u)) 1)
  then
    let u := set_paginator u (Paginator.NextPage (paginator u)) in
    let u := set_bounds u
      (Paginator.GetSliceBounds (paginator u)
         (NumNodes (UIModel_Stats u))) in
    set_current u 0
  else u.

Definition Update (u : UIModel) (msg : Msg)
  : Result (UIModel * Cmd * list Effect) :=
  match msg with
  | WindowSizeMsg w h => Ok (set_size u w h, tickCmd, [])
  | KeyMsg k =>
      if String.eqb k "up" then forward (moveUp u) msg
      else if String.eqb k "down" then forward (moveDown u) msg
      else if String.eqb k "q" || String.eqb k "esc" || String.eqb k "ctrl+c"
      then Ok (u, Quit, [])
      else if String.eqb k "enter" then
        '(cmd, effects) ← openNode u msg;
        Ok (u, cmd, effects)
      else forward u msg
  | execFinishedMsg e =>
      match e with
      | Some _ => Ok (set_err u e, Quit, [])
      | None => forward u msg
      end
  | tickMsg => Ok (u, tickCmd, [])
  | otherMsg => forward u msg
  end.

(** The text [openNode] copies or substitutes for a selected node. *)
Definition payloadOf (u : UIModel) (n : Node) : string :=
  if copyInstanceID u then InstanceID n else Name n.

(** The model on page [p], bounds recomputed for the current snapshot. *)
Definition onPage (u : UIModel) (p : Z) : UIModel :=
  let pg := Paginator.setPage (paginator u) p in
  set_bounds (set_paginator u pg)
             (Paginator.GetSliceBounds pg (NumNodes (UIModel_Stats u))).

(** [SetResources]. *)
Definition SetResources (u : UIModel) (rs : list string) : UIModel :=
  set_cluster u {| resources := rs; snapshot := snapshot (cluster u) |}.

End UI.

(** Modelled from the spec: [NewCluster] is not among the sources; a new
    cluster tracks the given resources and its snapshot has no node. *)
Definition emptyStats : Stats :=
  {| NumNodes := 0; Nodes := [];
     AllocatableResources := ∅; UsedResources := ∅;
     TotalPods := 0; PodsPending := 0; PodsRunning := 0; BoundPodCount := 0;
     TotalPrice := 0%float |}.

Definition NewCluster (rs : list string) : Cluster :=
  {| resources := rs; snapshot := emptyStats |}.

(** [NewUIModel]; [env_NODE_EXEC] is the value of the environment variable
    and [rs] the resources of the new cluster. *)
Definition NewUIModel {L : Libs} (rs : list string) (env_NODE_EXEC : string)
           (extraLabels : list string) (nodeSort : string)
           (copyInstanceID : bool) : UIModel :=
  {| progress_ShowPercentage := false;
     cluster := NewCluster rs;
     extraLabels := extraLabels;
     paginator := Paginator.New;
     help_Width := 0;
     keys_EnterHelp := "copy node name";
     height := 0;
     nodeSorter := makeNodeSorter nodeSort;
     current := 0;
     start := 0;
     end_ := 0;
     err := None;
     copyInstanceID := copyInstanceID;
     nodeExec := env_NODE_EXEC |}.

(* ===================================================================== *)
(** ** The event loop around the model *)
(* ===================================================================== *)

(** Modelled from the spec: the loop that drives [Update] and [View] belongs
    to the UI framework.  Section 5: one event is processed at a time and
    rendering happens synchronously inside event processing; a new snapshot
    is picked up by the next render. *)
Inductive Event : Type :=
| Message (msg : Msg)
| Snapshot (stats : Stats).

Section EventLoop.
Context {L : Libs} {T : Theme}.

Definition withSnapshot (u : UIModel) (stats : Stats) : UIModel :=
  set_cluster u {| resources := resources (cluster u); snapshot := stats |}.

Definition isQuit (cmd : Cmd) : bool :=
  match cmd with Quit => true | _ => false end.

(** One event, then the frame; the flag tells whether the loop goes on:
    it stops once [Update] has asked to quit. *)
Definition step (u : UIModel) (ev : Event) : Result (UIModel * bool) :=
  match ev with
  | Message msg =>
      '(u, cmd, _) ← Update u msg;
      '(u, _) ← View u;
      Ok (u, negb (isQuit cmd))
  | Snapshot stats =>
      '(u, _) ← View (withSnapshot u stats); Ok (u, true)
  end.

Fixpoint run (u : UIModel) (evs : list Event) : Result UIModel :=
  match evs with
  | [] => Ok u
  | ev :: rest =>
      '(u, continue) ← step u ev;
      if continue : bool then run u rest else Ok u
  end.

End EventLoop.

(** The visible set of a model: the length the code computes for
    [Nodes[start:end]]. *)
Definition visibleCount (u : UIModel) : Z := GoInt.sub (end_ u) (start u).

(* ===================================================================== *)
(** ** Instances for the examples *)
(* ===================================================================== *)

Module Sample.

Definition isDigit (c : ascii) : bool :=
  let n := nat_of_ascii c in (48 <=? n)%nat && (n <=? 57)%nat.

(** Maximal runs of digits and of non-digits, in order. *)
Fixpoint chunkify (s : string) : list string :=
  match s with
  | EmptyString => []
  | String c s' =>
      match chunkify s' with
      | [] => [String c EmptyString]
      | String d chunk :: rest =>
          if Bool.eqb (isDigit c) (isDigit d)
          then String c (String d chunk) :: rest
          else String c EmptyString :: String d chunk :: rest
      | EmptyString :: rest => String c EmptyString :: rest
      end
  end.

Fixpoint digitsValue (acc : Z) (s : string) : option Z :=
  match s with
  | EmptyString => Some acc
  | String c s' =>
      if isDigit c
      then digitsValue (10 * acc + (Z.of_nat (nat_of_ascii c) - 48)) s'
      else None
  end.

Fixpoint compareChunks (ca cb : list string) : bool :=
  match ca, cb with
  | [], _ => false
  | _ :: _, [] => false
  | a :: ra, b :: rb =>
      let tie :=
        match ra, rb with
        | [], _ => true
        | _, [] => false
        | _, _ => compareChunks ra rb
        end in
      match digitsValue 0 a, digitsValue 0 b with
      | Some x, Some y => if x =? y then tie else x <? y
      | _, _ => if String.eqb a b then tie else String.ltb a b
      end
  end.

(** A natural-order comparison: digit runs compare by value. *)
Definition naturalCompare (a b : string) : bool :=
  compareChunks (chunkify a) (chunkify b).

(** Insertion sort, the way a short slice is sorted in place: [x] enters
    at the end of the sorted run (kept last-first) and moves left while it
    is less than its neighbour. *)
Fixpoint insertLast (less : Node -> Node -> bool) (x : Node)
         (acc : list Node) : list Node :=
  match acc with
  | [] => [x]
  | y :: acc' => if less x y then y :: insertLast less x acc' else x :: acc
  end.

Definition insertionSort (less : Node -> Node -> bool) (l : list Node)
  : list Node :=
  rev (fold_left (fun acc x => insertLast less x acc) l []).

(** The first [%s] of the format replaced by the operand. *)
Fixpoint substFirst (format arg : string) : string :=
  match format with
  | EmptyString => EmptyString
  | String c rest =>
      match rest with
      | String d rest' =>
          if Ascii.eqb c "%"%char && Ascii.eqb d "s"%char
          then arg +:+ rest'
          else String c (substFirst rest arg)
      | EmptyString => format
      end
  end.

#[local] Instance libs : Libs :=
  {| natsort_Compare := naturalCompare;
     sort_Slice := insertionSort;
     ComputeLabel := fun _ _ => "";
     fmt_Sprintf := substFirst;
     clipboard_Init := None |}.

(** The same packages with a clipboard that fails to initialise. *)
#[local] Instance libsNoClipboard : Libs | 100 :=
  {| natsort_Compare := naturalCompare;
     sort_Slice := insertionSort;
     ComputeLabel := fun _ _ => "";
     fmt_Sprintf := substFirst;
     clipboard_Init := Some "no display" |}.

(** A theme that draws nothing but the text itself. *)
#[local] Instance theme : Theme :=
  {| selectedStyle := fun s => "[" +:+ s +:+ "]";
     deselectedStyle := fun s => s;
     style := fun _ s => s;
     progress_ViewAs := fun _ _ => "####";
     fmt_d := fun _ => "n";
     fmt_pct := fun _ => "p%";
     fmt_price := fun _ => "/$";
     fmt_Fprintf0 := fun s => s;
     enPrinter_d := fun _ => "n";
     enPrinter_price := fun _ _ => "$/hour | $/month";
     HumanDurationSince := fun _ => "1m";
     tabwriter_Flush := fun s => s;
     paginator_View := fun _ => "...";
     help_View := fun _ d => "enter " +:+ d |}.

Definition node (name id : string) (created : Z) (fargate : bool) : Node :=
  {| Name := name; InstanceID := id; InstanceType := "m5.large";
     Price := 0%float; HasPrice := false;
     Allocatable := ∅; Used := ∅;
     IsOnDemand := negb fargate; IsSpot := false; IsFargate := fargate;
     Cordoned := false; Deleting := false; Ready := true;
     NotReadyTime := 0; Created := created;
     Labels := ∅; NumPods := 0 |}.

Definition statsOf (ns : list Node) : Stats :=
  {| NumNodes := Z.of_nat (List.length ns); Nodes := ns;
     AllocatableResources := ∅; UsedResources := ∅;
     TotalPods := 0; PodsPending := 0; PodsRunning := 0; BoundPodCount := 0;
     TotalPrice := 0%float |}.

(** [k] nodes, created one after the other: node-k is the newest. *)
Fixpoint nodes (k : nat) : list Node :=
  match k with
  | O => []
  | S k' =>
      node ("node-" +:+ String (ascii_of_nat (48 + k)) EmptyString)
           ("i-" +:+ String (ascii_of_nat (48 + k)) EmptyString)
           (Z.of_nat k) false :: nodes k'
  end.

(** A fresh model tracking one resource, sorted by creation. *)
Definition fresh : UIModel := NewUIModel ["cpu"] "" [] "creation" false.

(** The same model with a command template, copying instance ids. *)
Definition freshExec : UIModel :=
  NewUIModel ["cpu"] "ssh %s" [] "creation" true.

Definition key (k : string) : Event := Message (KeyMsg k).
Definition resize (h : Z) : Event := Message (WindowSizeMsg 80 h).
Definition snapshotOf (k : nat) : Event := Snapshot (statsOf (nodes k)).

(** The model after the events, or the model itself should they panic. *)
Definition after (u : UIModel) (evs : list Event) : UIModel :=
  match run u evs with
  | Ok u' => u'
  | Panic _ => u
  end.

Definition withZone (n : Node) (zone : string) : Node :=
  {| Name := Name n; InstanceID := InstanceID n;
     InstanceType := InstanceType n; Price := Price n;
     HasPrice := HasPrice n; Allocatable := Allocatable n; Used := Used n;
     IsOnDemand := IsOnDemand n; IsSpot := IsSpot n;
     IsFargate := IsFargate n; Cordoned := Cordoned n;
     Deleting := Deleting n; Ready := Ready n;
     NotReadyTime := NotReadyTime n; Created := Created n;
     Labels := <["zone" := zone]> (Labels n); NumPods := NumPods n |}.

Definition zoneA : Node := withZone (node "node-a" "i-2" 10 false) "z1".
Definition zoneB : Node := withZone (node "node-b" "i-10" 20 false) "z1".

(** Three nodes, the two older ones created at the same instant. *)
Definition newest : Node := node "node-1" "i-1" 7 false.
Definition second : Node := node "node-2" "i-2" 5 false.


(** A Fargate node and an instance, the Fargate node the newer. *)
Definition fargate : Node := node "fargate-ip-10-0-0-1" "fargate-1" 3 true.
Definition instance : Node := node "node-1" "i-1" 1 false.
Definition mixed : Stats := statsOf [fargate; instance].

(** Browsing [mixed] with a command template, cursor on the Fargate node
    and on the instance. *)
Definition onFargate : UIModel :=
  after freshExec [resize 9; Snapshot mixed].
Definition onInstance : UIModel :=
  after freshExec [resize 9; Snapshot mixed; key "down"].

(** Browsing five nodes on pages of two. *)
Definition browsing : UIModel := after fresh [resize 8; snapshotOf 5].

Definition down : Event := key "down".

(** Six nodes on pages of two, the cursor taken to the third page, and
    then only four nodes left: the third page starts where the nodes end. *)
Definition shrunk : UIModel :=
  after fresh [resize 8; snapshotOf 6; down; down; down; down; snapshotOf 4].

(** A height at which the capacity comes out as zero. *)
Definition cramped : UIModel :=
  set_size (withSnapshot fresh (statsOf (nodes 1))) 80 6.

(** Two resources, and a height one line short of the header. *)
Definition short : UIModel :=
  set_size (withSnapshot (SetResources fresh ["cpu"; "memory"])
                         (statsOf (nodes 1))) 80 5.


(** The model a frame leaves and the text it draws (the model itself and
    no text should the frame panic). *)
Definition drawn (u : UIModel) : UIModel :=
  match View u with
  | Ok (u', _) => u'
  | Panic _ => u
  end.

Definition frame (u : UIModel) : string :=
  match View u with
  | Ok (_, text) => text
  | Panic _ => ""
  end.

(** [browsing] with the cursor on the second row, and then a snapshot that
    has one node only. *)
Definition second_row : UIModel := after browsing [down].
Definition alone : UIModel := withSnapshot second_row (statsOf (nodes 1)).

(** [browsing] taken to its last page, the third. *)
Definition last_page : UIModel := after browsing [key "right"; key "right"].

End Sample.

(** What the selection logic keeps of a model: page, capacity, page count,
    visible bounds and cursor. *)
Definition selection (u : UIModel) : Z * Z * Z * Z * Z * Z :=
  (Paginator.Page (paginator u), Paginator.PerPage (paginator u),
   Paginator.TotalPages (paginator u), start u, end_ u, current u).

(** The selection a run of the event loop ends in. *)
Definition outcome (r : Result UIModel) : Result (Z * Z * Z * Z * Z * Z) :=
  u ← r; Ok (selection u).



(** Running a bind whose first computation is known. *)
Ltac run_bind := cbn [mbind Result_bind mret Result_ret].

(** Closing a side condition on the range of an [int]. *)
Ltac int_range :=
  unfold GoInt.inRange, GoInt.minInt, GoInt.maxInt in *; lia.

(* ===================================================================== *)
(** * Properties *)
(* ===================================================================== *)

(** ** Arithmetic of [int] *)

Section GoIntFacts.

Lemma wrap_inRange (z : Z) : GoInt.inRange z -> GoInt.wrap z = z.
Proof.
  unfold GoInt.inRange, GoInt.minInt, GoInt.maxInt, GoInt.wrap. intros H.
  rewrite Z.mod_small; lia.
Qed.

Lemma wrap_range (z : Z) : GoInt.inRange (GoInt.wrap z).
Proof.
  unfold GoInt.inRange, GoInt.minInt, GoInt.maxInt, GoInt.wrap.
  pose proof
    (Z.mod_pos_bound (z + 9223372036854775808) 18446744073709551616).
  lia.
Qed.

Lemma add_exact (a b : Z) : GoInt.inRange (a + b) -> GoInt.add a b = a + b.
Proof. apply wrap_inRange. Qed.

Lemma sub_exact (a b : Z) : GoInt.inRange (a - b) -> GoInt.sub a b = a - b.
Proof. apply wrap_inRange. Qed.

Lemma mul_exact (a b : Z) : GoInt.inRange (a * b) -> GoInt.mul a b = a * b.
Proof. apply wrap_inRange. Qed.

Lemma countNewlines_nonneg (s : string) : 0 <= countNewlines s.
Proof. induction s as [|c s IH]; simpl; [lia | destruct (Ascii.eqb _ _); lia]. Qed.

End GoIntFacts.

(** ** Suffixes *)

Section StringFacts.

Lemma length_app (a b : string) :
  String.length (a +:+ b) = (String.length a + String.length b)%nat.
Proof. induction a as [|c a IH]; simpl; [reflexivity | now rewrite IH]. Qed.

Lemma substring_skip (a b : string) (n : nat) :
  substring (String.length a) n (a +:+ b) = substring 0 n b.
Proof. induction a as [|c a IH]; simpl; [reflexivity | exact IH]. Qed.

Lemma substring_take (a b : string) :
  substring 0 (String.length a) (a +:+ b) = a.
Proof.
  induction a as [|c a IH]; simpl.
  - destruct b; reflexivity.
  - now rewrite IH.
Qed.

Lemma append_assoc (a b c : string) : (a +:+ b) +:+ c = a +:+ b +:+ c.
Proof.
  induction a as [|x a IH]; [reflexivity|].
  change (String x ((a +:+ b) +:+ c) = String x (a +:+ b +:+ c)).
  now rewrite IH.
Qed.

Lemma substring_all (a : string) : substring 0 (String.length a) a = a.
Proof. induction a as [|c a IH]; simpl; [reflexivity | now rewrite IH]. Qed.

(** A string that ends in a four-byte suffix has it, and loses exactly
    that suffix. *)
Lemma HasSuffix_app4 (a suffix other : string) :
  String.length suffix = 4%nat ->
  String.length other = 4%nat ->
  HasSuffix (a +:+ suffix) other = String.eqb suffix other.
Proof.
  intros Hs Ho. unfold HasSuffix.
  rewrite length_app, Hs, Ho.
  replace (String.length a + 4 - 4)%nat with (String.length a) by lia.
  rewrite substring_skip.
  replace (4 <=? String.length a + 4)%nat with true
    by (symmetry; apply Nat.leb_le; lia).
  simpl andb.
  pose proof (substring_all suffix) as Hall. rewrite Hs in Hall.
  now rewrite Hall.
Qed.

Lemma dropLast4_app4 (a suffix : string) :
  String.length suffix = 4%nat -> dropLast4 (a +:+ suffix) = a.
Proof.
  intros Hs. unfold dropLast4. rewrite length_app, Hs.
  replace (String.length a + 4 - 4)%nat with (String.length a) by lia.
  apply substring_take.
Qed.

End StringFacts.

(** ** Sorted rearrangements *)

Section SortedFacts.
Context {A : Type}.
Implicit Types (R : A -> A -> Prop) (l : list A).



End SortedFacts.

(** ** NodeSorter *)

Section NodeSorterFacts.
Context {L : Libs}.

Lemma sortDirection_dsc (key : string) :
  sortDirection (key +:+ "=dsc") = (negb, key).
Proof.
  unfold sortDirection.
  rewrite (HasSuffix_app4 key "=dsc" "=asc") by reflexivity.
  simpl String.eqb. cbv iota.
  rewrite (HasSuffix_app4 key "=dsc" "=dsc") by reflexivity.
  simpl String.eqb. cbv iota.
  now rewrite dropLast4_app4.
Qed.

Lemma sortDirection_asc (key : string) :
  HasSuffix key "=dsc" = false ->
  sortDirection (key +:+ "=asc") = (fun b : bool => b, key).
Proof.
  intros Hd. unfold sortDirection.
  rewrite (HasSuffix_app4 key "=asc" "=asc") by reflexivity.
  simpl String.eqb. cbv iota.
  rewrite dropLast4_app4 by reflexivity.
  now rewrite Hd.
Qed.

Lemma sortDirection_plain (key : string) :
  HasSuffix key "=asc" = false ->
  HasSuffix key "=dsc" = false ->
  sortDirection key = (fun b : bool => b, key).
Proof. intros Ha Hd. unfold sortDirection. now rewrite Ha, Hd. Qed.

Lemma comparatorFor_negb (key : string) (lhs rhs : Node) :
  comparatorFor negb key lhs rhs
  = negb (comparatorFor (fun b => b) key lhs rhs).
Proof.
  unfold comparatorFor, creationLess, labelLess.
  destruct (String.eqb key "creation").
  - now destruct (Created lhs =? Created rhs).
  - now destruct (String.eqb _ _).
Qed.

Lemma makeNodeSorter_dsc (key : string) (lhs rhs : Node) :
  makeNodeSorter (key +:+ "=dsc") lhs rhs
  = negb (comparatorFor (fun b => b) key lhs rhs).
Proof.
  unfold makeNodeSorter. rewrite sortDirection_dsc.
  apply comparatorFor_negb.
Qed.

Lemma makeNodeSorter_plain (key : string) :
  HasSuffix key "=asc" = false ->
  HasSuffix key "=dsc" = false ->
  makeNodeSorter key = comparatorFor (fun b => b) key.
Proof.
  intros Ha Hd. unfold makeNodeSorter.
  now rewrite sortDirection_plain.
Qed.

Lemma makeNodeSorter_asc (key : string) :
  HasSuffix key "=dsc" = false ->
  makeNodeSorter (key +:+ "=asc") = comparatorFor (fun b => b) key.
Proof.
  intros Hd. unfold makeNodeSorter. now rewrite sortDirection_asc.
Qed.



End NodeSorterFacts.

Section LabelSorterFacts.
Context {L : Libs}.

(** C8: a specification whose key, once the direction suffix is cut, is
    not [creation] yields a comparator (building it cannot fail: it is a
    total function); the key is read as a label name, the value of a node
    is the label if present and the computed-label fallback otherwise (the
    empty string when that yields it), the order is the natural-order
    comparison of the two values, equal values are ordered by the
    natural-order comparison of the instance identifiers, and under [=dsc]
    the boolean returned is negated. *)
Theorem label_key_sorter (spec : string) (lhs rhs : Node) :
  snd (sortDirection spec) <> "creation" ->
  let key := snd (sortDirection spec) in
  let order := fst (sortDirection spec) in
  (forall n : Node,
      labelValue n key
      = match Labels n !! key with
        | Some v => v
        | None => ComputeLabel n key
        end)
  /\ (forall n : Node,
         Labels n !! key = None -> ComputeLabel n key = "" ->
         labelValue n key = "")
  /\ makeNodeSorter spec lhs rhs
     = order (if String.eqb (labelValue lhs key) (labelValue rhs key)
              then natsort_Compare (InstanceID lhs) (InstanceID rhs)
              else natsort_Compare (labelValue lhs key) (labelValue rhs key))
  /\ (labelValue lhs key = labelValue rhs key ->
      makeNodeSorter spec lhs rhs
      = order (natsort_Compare (InstanceID lhs) (InstanceID rhs)))
  /\ (forall k : string,
         spec = k +:+ "=dsc" -> key = k /\ order = negb)
  /\ (forall k : string,
         HasSuffix k "=asc" = false -> HasSuffix k "=dsc" = false ->
         spec = k \/ spec = k +:+ "=asc" ->
         key = k /\ order = (fun b : bool => b)).
Proof.
  intros Hkey key order.
  assert (makeNodeSorter spec = labelLess order key) as Hlabel.
  { unfold makeNodeSorter.
    rewrite (surjective_pairing (sortDirection spec)).
    fold key order. unfold comparatorFor.
    destruct (String.eqb_spec key "creation") as [Heq|_];
      [contradiction|reflexivity]. }
  split; [reflexivity|]. split; [|split; [|split; [|split]]].
  - intros n Habsent Hempty. unfold labelValue. now rewrite Habsent.
  - rewrite Hlabel. unfold labelLess. now destruct (String.eqb _ _).
  - intros Heq. rewrite Hlabel. unfold labelLess.
    now rewrite Heq, String.eqb_refl.
  - intros k ->. subst key order. now rewrite sortDirection_dsc.
  - intros k Ha Hd Hspec. subst key order.
    destruct Hspec as [->| ->];
      [now rewrite sortDirection_plain | now rewrite sortDirection_asc].
Qed.

End LabelSorterFacts.

(** *** The two theorems on concrete nodes *)

Lemma label_key_sorter_zone_dsc :
  @makeNodeSorter Sample.libs "zone=dsc" Sample.zoneA Sample.zoneB
  = negb (Sample.naturalCompare "i-2" "i-10")
  /\ @makeNodeSorter Sample.libs "zone=dsc" Sample.zoneA Sample.zoneB
     = false.
Proof.
  assert (snd (@sortDirection "zone=dsc") <> "creation") as Hkey
    by (vm_compute; discriminate).
  destruct (@label_key_sorter Sample.libs "zone=dsc"
              Sample.zoneA Sample.zoneB Hkey)
    as (_ & _ & _ & Htie & _).
  split; [apply Htie|rewrite Htie]; reflexivity.
Defined.



(** ** ActionDispatcher *)

Section DispatchFacts.
Context {L : Libs} {T : Theme}.

Lemma Paginator_Update_cmd (p : Paginator.Model) (msg : Msg) :
  snd (Paginator.Update p msg) = nilCmd.
Proof.
  destruct msg; try reflexivity. unfold Paginator.Update.
  destruct (Paginator.keyMatches key Paginator.nextPageKeys); [reflexivity|].
  now destruct (Paginator.keyMatches key Paginator.prevPageKeys).
Qed.

Lemma set_paginator_id (u : UIModel) : set_paginator u (paginator u) = u.
Proof. now destruct u. Qed.

Lemma SelectedNodeName_ok (u : UIModel) (n : Node) :
  SelectedNode u = Ok n -> SelectedNodeName u = Ok (payloadOf u n).
Proof.
  intros Hn. unfold SelectedNodeName, payloadOf. rewrite Hn. run_bind.
  now destruct (copyInstanceID u).
Qed.

Lemma openNode_copy (u : UIModel) (msg : Msg) (n : Node) :
  SelectedNode u = Ok n ->
  nodeExec u = "" \/ payloadOf u n = "" \/ IsFargate n = true ->
  openNode u msg
  = match clipboard_Init with
    | Some e => Panic (ClipboardInitFailed e)
    | None => Ok (nilCmd, [ClipboardWrite (payloadOf u n)])
    end.
Proof.
  intros Hn Hcopy. unfold openNode.
  rewrite (SelectedNodeName_ok u n Hn). run_bind.
  assert ((if String.eqb (nodeExec u) "" then Ok true
           else if String.eqb (payloadOf u n) "" then Ok true
                else n0 ← SelectedNode u; Ok (IsFargate n0)) = Ok true)
    as ->.
  { destruct (String.eqb_spec (nodeExec u) ""); [reflexivity|].
    destruct (String.eqb_spec (payloadOf u n) ""); [reflexivity|].
    rewrite Hn. run_bind. destruct Hcopy as [?|[?|Hf]];
      [contradiction..|now rewrite Hf]. }
  run_bind. destruct clipboard_Init; [reflexivity|].
  rewrite (surjective_pairing (Paginator.Update (paginator u) msg)).
  now rewrite Paginator_Update_cmd.
Qed.

Lemma openNode_exec (u : UIModel) (msg : Msg) (n : Node) :
  SelectedNode u = Ok n ->
  nodeExec u <> "" -> payloadOf u n <> "" -> IsFargate n = false ->
  openNode u msg
  = Ok (ExecProcess "/bin/sh"
                    ["-c"; fmt_Sprintf (nodeExec u) (payloadOf u n)]
                    execFinished, []).
Proof.
  intros Hn He Hp Hf. unfold openNode.
  rewrite (SelectedNodeName_ok u n Hn). run_bind.
  destruct (String.eqb_spec (nodeExec u) ""); [contradiction|].
  destruct (String.eqb_spec (payloadOf u n) ""); [contradiction|].
  rewrite Hn. run_bind. now rewrite Hf.
Qed.

Lemma Update_enter (u : UIModel) :
  Update u (KeyMsg "enter")
  = '(cmd, effects) ← openNode u (KeyMsg "enter"); Ok (u, cmd, effects).
Proof. reflexivity. Qed.

(** C3: on the confirm key with a node selected, if no command template
    is configured, or the payload (the node name, or the instance
    identifier in copy-instance-id mode) is empty, or the node is a
    Fargate node, all that happens is one clipboard write of the payload
    and no process is started (a clipboard that cannot be initialised
    panics instead); otherwise nothing is written and the command handed
    to the event loop runs [/bin/sh -c] on the template with the payload
    as its one operand, its completion coming back as a message. *)
Theorem confirm_copies_or_executes (u : UIModel) (n : Node) :
  SelectedNode u = Ok n ->
  (nodeExec u = "" \/ payloadOf u n = "" \/ IsFargate n = true ->
   Update u (KeyMsg "enter")
   = match clipboard_Init with
     | Some e => Panic (ClipboardInitFailed e)
     | None => Ok (u, nilCmd, [ClipboardWrite (payloadOf u n)])
     end)
  /\ (nodeExec u <> "" -> payloadOf u n <> "" -> IsFargate n = false ->
      Update u (KeyMsg "enter")
      = Ok (u,
            ExecProcess "/bin/sh"
                        ["-c"; fmt_Sprintf (nodeExec u) (payloadOf u n)]
                        (fun e => execFinishedMsg e),
            [])).
Proof.
  intros Hn. split.
  - intros Hcopy. simpl.
    rewrite (openNode_copy u _ n Hn Hcopy).
    now destruct clipboard_Init.
  - intros He Hp Hf. simpl.
    now rewrite (openNode_exec u _ n Hn He Hp Hf).
Qed.

(** C6: when the clipboard cannot be initialised the confirm key panics,
    which no part of the model recovers from; an external command that
    reports an error has it stored in the error field and the loop told
    to quit, so that no later event is processed; a command that completes
    without error leaves the model as it is and asks for nothing. *)
Theorem failure_semantics :
  (forall (u : UIModel) (n : Node) (e : string),
      SelectedNode u = Ok n ->
      nodeExec u = "" \/ payloadOf u n = "" \/ IsFargate n = true ->
      clipboard_Init = Some e ->
      Update u (KeyMsg "enter") = Panic (ClipboardInitFailed e)
      /\ forall rest : list Event,
          run u (Message (KeyMsg "enter") :: rest)
          = Panic (ClipboardInitFailed e))
  /\ (forall (u : UIModel) (e : string),
         Update u (execFinishedMsg (Some e))
         = Ok (set_err u (Some e), Quit, [])
         /\ err (set_err u (Some e)) = Some e
         /\ forall rest : list Event,
             run u (Message (execFinishedMsg (Some e)) :: rest)
             = run u [Message (execFinishedMsg (Some e))])
  /\ (forall u : UIModel,
         Update u (execFinishedMsg None) = Ok (u, nilCmd, [])).
Proof.
  split; [|split].
  - intros u n e Hn Hcopy Hinit.
    assert (Update u (KeyMsg "enter") = Panic (ClipboardInitFailed e)) as HU.
    { rewrite Update_enter, (openNode_copy u _ n Hn Hcopy).
      now rewrite Hinit. }
    split; [exact HU|]. intros rest.
    cbn [run step]. now rewrite HU.
  - intros u e. split; [reflexivity|]. split; [reflexivity|].
    intros rest. cbn [run step Update]. run_bind.
    destruct (View (set_err u (Some e))) as [[u' text]|p]; reflexivity.
  - intros u. cbn [Update]. unfold forward. cbn.
    now rewrite set_paginator_id.
Qed.

(** C10: the confirm key goes to [openNode] whatever the model holds, and
    [openNode] starts by looking the selected node up; with no node in
    the snapshot the lookup [Nodes[start:end][current]] is out of bounds
    and panics, whatever the bounds and the cursor are. *)
Theorem confirm_on_empty_node_set_panics (u : UIModel) :
  Nodes (UIModel_Stats u) = [] ->
  (Update u (KeyMsg "enter")
   = '(cmd, effects) ← openNode u (KeyMsg "enter"); Ok (u, cmd, effects))
  /\ (SelectedNode u = Panic SliceBoundsOutOfRange
      \/ SelectedNode u = Panic IndexOutOfRange)
  /\ (Update u (KeyMsg "enter") = Panic SliceBoundsOutOfRange
      \/ Update u (KeyMsg "enter") = Panic IndexOutOfRange).
Proof.
  intros Hempty. split; [reflexivity|].
  assert (SelectedNode u = Panic SliceBoundsOutOfRange
          \/ SelectedNode u = Panic IndexOutOfRange) as Hsel.
  { unfold SelectedNode, slice. rewrite Hempty. simpl List.length.
    destruct (_ && _ && _) eqn:Hb; [|now left]. right.
    apply andb_prop in Hb as [Hb Hhi]. apply andb_prop in Hb as [Hlo Hle].
    apply Z.leb_le in Hhi, Hlo, Hle.
    assert (end_ u - start u = 0) as -> by (simpl in Hhi; lia).
    simpl. unfold index. destruct (0 <=? current u); [|reflexivity].
    now destruct (Z.to_nat (current u)). }
  split; [exact Hsel|].
  cbn [Update]. change (String.eqb "enter" "up") with false.
  simpl. unfold openNode, SelectedNodeName.
  destruct Hsel as [-> | ->]; [now left | now right].
Qed.

End DispatchFacts.

(** *** The dispatch theorems on concrete models *)

Lemma confirm_on_fargate_and_on_instance :
  @Update Sample.libs Sample.onFargate (KeyMsg "enter")
  = Ok (Sample.onFargate, nilCmd, [ClipboardWrite "fargate-1"])
  /\ @Update Sample.libs Sample.onInstance (KeyMsg "enter")
     = Ok (Sample.onInstance,
           ExecProcess "/bin/sh" ["-c"; "ssh i-1"]
                       (fun e => execFinishedMsg e),
           []).
Proof.
  split.
  - assert (@SelectedNode Sample.libs Sample.onFargate = Ok Sample.fargate)
      as Hn by (vm_compute; reflexivity).
    destruct (@confirm_copies_or_executes Sample.libs Sample.onFargate
                Sample.fargate Hn) as [Hcopy _].
    apply Hcopy. right. right. reflexivity.
  - assert (@SelectedNode Sample.libs Sample.onInstance = Ok Sample.instance)
      as Hn by (vm_compute; reflexivity).
    destruct (@confirm_copies_or_executes Sample.libs Sample.onInstance
                Sample.instance Hn) as [_ Hexec].
    apply Hexec; [| |reflexivity];
      intros H; vm_compute in H; discriminate H.
Defined.

Lemma clipboard_failure_panics_and_command_failure_quits :
  @Update Sample.libsNoClipboard Sample.onFargate (KeyMsg "enter")
  = Panic (ClipboardInitFailed "no display")
  /\ @Update Sample.libsNoClipboard Sample.onInstance
             (execFinishedMsg (Some "exit status 1"))
     = Ok (set_err Sample.onInstance (Some "exit status 1"), Quit, []).
Proof.
  destruct (@failure_semantics Sample.libsNoClipboard Sample.theme)
    as (Hclip & Hexec & _).
  split.
  - refine (proj1 (Hclip Sample.onFargate Sample.fargate "no display"
                         _ _ eq_refl)).
    + vm_compute; reflexivity.
    + right. right. reflexivity.
  - exact (proj1 (Hexec Sample.onInstance "exit status 1")).
Defined.

Lemma confirm_on_fresh_model_panics :
  @Update Sample.libs Sample.fresh (KeyMsg "enter") = Panic IndexOutOfRange.
Proof.
  assert (Nodes (@UIModel_Stats Sample.libs Sample.fresh) = []) as Hempty
    by reflexivity.
  destruct (@confirm_on_empty_node_set_panics Sample.libs Sample.fresh Hempty)
    as (_ & _ & [Hslice | Hindex]).
  - vm_compute in Hslice. discriminate Hslice.
  - exact Hindex.
Defined.

(** ** RenderPipeline: percentages and colours *)

Section PercentageFacts.
Context {L : Libs} {T : Theme}.

(** The percentage and the colour a summary line is drawn with are those
    of [pctUsedOf] and [pctColour]. *)
Lemma summary_line_percentage (u : UIModel) (stats : Stats) (first : bool)
      (res : string) (rest : list string) :
  let allocatable := resourceOf (AllocatableResources stats) res in
  let used := resourceOf (UsedResources stats) res in
  exists before after : string,
    snd (writeSummaryLines u stats first (res :: rest))
    = before
        +:+ style (pctColour (pctUsedOf used allocatable))
                  (fmt_pct (pctUsedOf used allocatable))
        +:+ after.
Proof.
  intros allocatable used. cbn [writeSummaryLines].
  fold allocatable used.
  destruct (writeSummaryLines (set_ShowPercentage u false) stats false rest)
    as [u' more] eqn:Hrest.
  cbn [snd]. destruct first.
  - eexists (enPrinter_d (NumNodes stats) +:+ " nodes" +:+ TAB
               +:+ "(" +:+ QuantityString used +:+ "/"
               +:+ QuantityString allocatable +:+ ")" +:+ TAB), _.
    rewrite !append_assoc. reflexivity.
  - eexists (" " +:+ TAB +:+ QuantityString used +:+ "/"
               +:+ QuantityString allocatable +:+ TAB), _.
    rewrite !append_assoc. reflexivity.
Qed.

(** C7: the utilization percentage of a cluster resource is 0 whenever
    its allocatable quantity is 0, whatever is used, and so is the gauge
    ratio of a node resource; the colour thresholds are strict: 90 is not
    in the top band and 60 is not in the middle band, while every value
    above 90 is in the top band and every value above 60 is out of the
    bottom band. *)
Theorem zero_allocatable_and_strict_thresholds :
  (forall used allocatable : Quantity,
      (AsApproximateFloat64 allocatable =? 0)%float = true ->
      pctUsedOf used allocatable = 0%float)
  /\ (forall usedRes allocatableRes : Quantity,
         (AsApproximateFloat64 allocatableRes =? 0)%float = true ->
         nodePct usedRes allocatableRes = 0%float)
  /\ (forall (used : Quantity) (resources : gmap string Quantity)
             (res : string),
         resources !! res = None ->
         pctUsedOf used (resourceOf resources res) = 0%float
         /\ nodePct used (resourceOf resources res) = 0%float)
  /\ pctColour 90 = yellow
  /\ pctColour 60 = red
  /\ (forall p : float, (90 <? p)%float = true -> pctColour p = green)
  /\ (forall p : float,
         (60 <? p)%float = true ->
         pctColour p = if (90 <? p)%float then green else yellow).
Proof.
  repeat apply conj.
  - intros used allocatable H. unfold pctUsedOf. now rewrite H.
  - intros usedRes allocatableRes H. unfold nodePct. now rewrite H.
  - intros used resources res H. unfold resourceOf. rewrite H. now split.
  - reflexivity.
  - reflexivity.
  - intros p H. unfold pctColour. now rewrite H.
  - intros p H. unfold pctColour. rewrite H. now destruct (90 <? p)%float.
Qed.

End PercentageFacts.

#[local] Set Warnings "-inexact-float".

Lemma zero_allocatable_and_boundary_percentages :
  pctUsedOf {| AsApproximateFloat64 := 7; QuantityString := "7" |} zeroQuantity
  = 0%float
  /\ nodePct {| AsApproximateFloat64 := 7; QuantityString := "7" |} zeroQuantity
     = 0%float
  /\ pctColour (pctUsedOf {| AsApproximateFloat64 := 9; QuantityString := "9" |}
                          {| AsApproximateFloat64 := 10; QuantityString := "10" |})
     = yellow
  /\ pctColour 90.1 = green
  /\ pctColour 60.1 = yellow.
Proof.
  destruct zero_allocatable_and_strict_thresholds
    as (Hpct & Hnode & _ & _ & _ & Hhigh & Hmid).
  repeat apply conj.
  - apply Hpct. reflexivity.
  - apply Hnode. reflexivity.
  - reflexivity.
  - apply Hhigh. reflexivity.
  - apply (Hmid 60.1%float). reflexivity.
Defined.

(** ** PaginationEngine: the page capacity *)

Section CapacityFacts.
Context {L : Libs} {T : Theme}.

Lemma quot_range (a b : Z) :
  0 < b -> - GoInt.maxInt <= a <= GoInt.maxInt ->
  - GoInt.maxInt <= Z.quot a b <= GoInt.maxInt.
Proof.
  intros Hb Ha. destruct (Z_lt_le_dec a 0) as [Hneg|Hpos].
  - replace a with (- (- a)) by lia. rewrite Z.quot_opp_l by lia.
    rewrite Z.quot_div_nonneg by lia.
    pose proof (Z.div_le_upper_bound (- a) b (- a) Hb) as Hup.
    pose proof (Z.div_pos (- a) b) as Hlow. nia.
  - rewrite Z.quot_div_nonneg by lia.
    pose proof (Z.div_le_upper_bound a b a Hb) as Hup.
    pose proof (Z.div_pos a b) as Hlow. nia.
Qed.

(** C4, as the code has it: the capacity is the quotient of the height
    left under the header by the lines of one node, truncated toward
    zero, minus one; the header is the number of newlines built so far
    plus 2 and a node without lines counts as one line.  The truncated
    quotient is the floor of the spec exactly when the height is not
    below the header (or the division is exact). *)
Theorem capacity_is_truncated_quotient
        (u : UIModel) (nodes : list Node) (n0 : Node) (b : string) :
  index nodes 0 = Ok n0 ->
  0 <= height u <= GoInt.maxInt ->
  countNewlines b + 2 <= GoInt.maxInt ->
  let header := countNewlines b + 2 in
  let lines := countNewlines (writeNodeInfo u n0 (resources (cluster u)) 0) in
  let perNode := if lines =? 0 then 1 else lines in
  0 < perNode
  /\ computeItemsPerPage u nodes b
     = Ok (Z.quot (height u - header) perNode - 1)
  /\ (header <= height u ->
      computeItemsPerPage u nodes b
      = Ok ((height u - header) / perNode - 1))
  /\ (height u < header ->
      computeItemsPerPage u nodes b
      = Ok (- ((header - height u) / perNode) - 1)).
Proof.
  intros Hn0 Hh Hb header lines perNode.
  pose proof (countNewlines_nonneg b) as Hb0.
  pose proof (countNewlines_nonneg
                (writeNodeInfo u n0 (resources (cluster u)) 0)) as Hl0.
  fold lines in Hl0.
  assert (0 < perNode) as Hper.
  { subst perNode. destruct (Z.eqb_spec lines 0); lia. }
  assert (computeItemsPerPage u nodes b
          = Ok (Z.quot (height u - header) perNode - 1)) as Hcap.
  { unfold computeItemsPerPage. rewrite Hn0. run_bind.
    fold lines. fold perNode. unfold quo.
    destruct (Z.eqb_spec perNode 0) as [H0|_]; [lia|].
    run_bind. unfold GoInt.maxInt in *.
    rewrite (add_exact (countNewlines b) 2)
      by int_range.
    fold header.
    rewrite (sub_exact (height u) header)
      by int_range.
    pose proof (quot_range (height u - header) perNode Hper) as Hq.
    unfold GoInt.maxInt in Hq.
    rewrite (wrap_inRange (Z.quot (height u - header) perNode))
      by int_range.
    rewrite sub_exact
      by int_range.
    reflexivity. }
  split; [exact Hper|]. split; [exact Hcap|]. split.
  - intros Hge. rewrite Hcap. now rewrite Z.quot_div_nonneg by lia.
  - intros Hlt. rewrite Hcap.
    replace (height u - header) with (- (header - height u)) by lia.
    rewrite Z.quot_opp_l by lia.
    now rewrite Z.quot_div_nonneg by lia.
Qed.

(** [View] leaves the gauge showing percentages, whatever the summary
    did to the flag. *)
Lemma writeSummaryLines_flag (u : UIModel) (stats : Stats) (first : bool)
      (rs : list string) :
  set_ShowPercentage (fst (writeSummaryLines u stats first rs)) true
  = set_ShowPercentage u true.
Proof.
  revert u first. induction rs as [|res rs IH]; intros u first;
    [reflexivity|].
  cbn [writeSummaryLines].
  specialize (IH (set_ShowPercentage u false) false).
  destruct (writeSummaryLines (set_ShowPercentage u false) stats false rs)
    as [u' more].
  cbn [fst] in *. rewrite IH. reflexivity.
Qed.

Lemma View_nodes (u : UIModel) :
  NumNodes (UIModel_Stats u) <> 0 ->
  View u
  = viewNodes (set_ShowPercentage u true) (UIModel_Stats u) (viewHeader u).
Proof.
  intros HN. unfold View, viewHeader, writeClusterSummary.
  pose proof (writeSummaryLines_flag u (UIModel_Stats u) true
                (resources (cluster u))) as Hflag.
  destruct (writeSummaryLines u (UIModel_Stats u) true
              (resources (cluster u))) as [u' summary].
  cbn [fst] in Hflag. rewrite Hflag.
  destruct (Z.eqb_spec (NumNodes (UIModel_Stats u)) 0); [contradiction|].
  reflexivity.
Qed.

(** C5, where the code departs from it: a frame whose capacity comes out
    as zero is not drawn; the page count divides by the capacity and
    [View] panics. *)
Theorem View_panics_on_zero_capacity (u : UIModel) :
  1 <= NumNodes (UIModel_Stats u) ->
  viewCapacity u = Ok 0 ->
  View u = Panic IntegerDivideByZero.
Proof.
  intros HN Hcap. rewrite View_nodes by lia.
  unfold viewNodes. unfold viewCapacity in Hcap. rewrite Hcap. run_bind.
  unfold repair, Paginator.SetTotalPages.
  destruct (Z.ltb_spec (NumNodes (UIModel_Stats u)) 1); [lia|].
  reflexivity.
Qed.

End CapacityFacts.

Lemma capacity_of_browsing :
  @computeItemsPerPage Sample.libs Sample.theme
    (set_ShowPercentage Sample.browsing true)
    (Nodes (@UIModel_Stats Sample.libs Sample.browsing))
    (@viewHeader Sample.libs Sample.theme Sample.browsing)
  = Ok 2.
Proof.
  destruct (@capacity_is_truncated_quotient Sample.libs Sample.theme
              (set_ShowPercentage Sample.browsing true)
              (Nodes (@UIModel_Stats Sample.libs Sample.browsing))
              (Sample.node "node-5" "i-5" 5 false)
              (@viewHeader Sample.libs Sample.theme Sample.browsing))
    as (_ & Hcap & _).
  - vm_compute; reflexivity.
  - vm_compute. split; discriminate.
  - vm_compute. discriminate.
  - rewrite Hcap. vm_compute. reflexivity.
Defined.

(** C4 as the spec words it fails below the header: at height 5 under a
    header of 6 lines, with 2 lines per node, the capacity is -1, and the
    floor formula gives -2. *)
Lemma capacity_is_not_the_floor_below_the_header :
  @viewCapacity Sample.libs Sample.theme Sample.short = Ok (-1)
  /\ height Sample.short = 5
  /\ countNewlines (@viewHeader Sample.libs Sample.theme Sample.short) + 2 = 6
  /\ countNewlines
       (@writeNodeInfo Sample.libs Sample.theme
          (set_ShowPercentage Sample.short true)
          (Sample.node "node-1" "i-1" 1 false)
          (resources (cluster Sample.short)) 0) = 2
  /\ (5 - 6) / 2 - 1 = -2
  /\ @viewCapacity Sample.libs Sample.theme Sample.short
     <> Ok ((5 - 6) / 2 - 1).
Proof.
  repeat apply conj; try (vm_compute; reflexivity).
  vm_compute. discriminate.
Qed.

Lemma View_panics_in_six_rows :
  @View Sample.libs Sample.theme Sample.cramped
  = Panic IntegerDivideByZero.
Proof.
  apply View_panics_on_zero_capacity.
  - vm_compute. discriminate.
  - vm_compute. reflexivity.
Defined.

(** ** PaginationEngine: pages *)

Section PaginationFacts.
Context {L : Libs} {T : Theme}.

(** With a positive capacity the page count is the ceiling of the spec. *)
Lemma SetTotalPages_ceiling (m : Paginator.Model) (items : Z) :
  1 <= items <= GoInt.maxInt ->
  0 < Paginator.PerPage m ->
  Paginator.SetTotalPages m items
  = Ok (Paginator.setTotalPages
          m ((items + Paginator.PerPage m - 1) / Paginator.PerPage m)).
Proof.
  intros Hitems Hper. unfold Paginator.SetTotalPages, quo, rem.
  set (c := Paginator.PerPage m) in *.
  destruct (Z.ltb_spec items 1); [lia|].
  destruct (Z.eqb_spec c 0); [lia|]. run_bind.
  rewrite Z.quot_div_nonneg, Z.rem_mod_nonneg by lia.
  pose proof (Z.div_mod items c ltac:(lia)) as Hdm.
  pose proof (Z.mod_pos_bound items c Hper) as Hmod.
  assert (0 <= items / c <= items) as Hq.
  { split; [apply Z.div_pos; lia|].
    apply Z.div_le_upper_bound; nia. }
  rewrite (wrap_inRange (items / c)) by int_range.
  do 2 f_equal.
  destruct (Z.ltb_spec 0 (items mod c)).
  - rewrite add_exact by int_range.
    apply (Z.div_unique_pos _ _ _ (items mod c - 1)); lia.
  - apply (Z.div_unique_pos _ _ _ (c - 1)); lia.
Qed.

(** The defect behind C1 in general: when the page starts exactly where
    the nodes end, [View]'s repair keeps the page, the visible set is
    empty and a cursor that was in range is set to -1. *)
Lemma repair_keeps_a_page_that_starts_at_the_end
      (u : UIModel) (stats : Stats) (c : Z) :
  0 < c ->
  1 <= NumNodes stats ->
  GoInt.inRange (NumNodes stats + c) ->
  Paginator.Page (paginator u) * c = NumNodes stats ->
  0 <= current u ->
  exists u' : UIModel,
    repair u stats c = Ok u'
    /\ Paginator.Page (paginator u') = Paginator.Page (paginator u)
    /\ start u' = NumNodes stats
    /\ end_ u' = NumNodes stats
    /\ current u' = -1.
Proof.
  intros Hc HN Hrange Hpage Hcur.
  set (N := NumNodes stats) in *. set (P := Paginator.Page (paginator u)) in *.
  unfold repair.
  rewrite SetTotalPages_ceiling
    by (cbn [Paginator.PerPage Paginator.setPerPage]; int_range).
  run_bind.
  cbn [Paginator.Page Paginator.PerPage Paginator.setTotalPages
       Paginator.setPerPage].
  fold P N. rewrite (mul_exact P c) by int_range. rewrite Hpage.
  rewrite Z.ltb_irrefl.
  unfold Paginator.GetSliceBounds.
  cbn [Paginator.Page Paginator.PerPage Paginator.setTotalPages
       Paginator.setPerPage].
  fold P. rewrite (mul_exact P c) by int_range. rewrite Hpage.
  rewrite (add_exact N c) by int_range.
  rewrite Z.min_r by lia.
  cbn [set_bounds set_paginator start end_ current fst snd].
  rewrite (sub_exact N N) by int_range. rewrite Z.sub_diag.
  destruct (Z.leb_spec 0 (current u)); [|lia].
  eexists. split; [reflexivity|]. repeat split.
Qed.

End PaginationFacts.

(** ** SelectionState *)

Section SelectionFacts.
Context {L : Libs} {T : Theme}.

Lemma forward_other_key (u : UIModel) (k : string) :
  Paginator.keyMatches k Paginator.nextPageKeys = false ->
  Paginator.keyMatches k Paginator.prevPageKeys = false ->
  forward u (KeyMsg k) = Ok (u, nilCmd, []).
Proof.
  intros Hn Hp. unfold forward, Paginator.Update. rewrite Hn, Hp.
  now rewrite set_paginator_id.
Qed.

Lemma forward_down (u : UIModel) :
  forward u (KeyMsg "down") = Ok (u, nilCmd, []).
Proof. now apply forward_other_key. Qed.

Lemma forward_up (u : UIModel) :
  forward u (KeyMsg "up") = Ok (u, nilCmd, []).
Proof. now apply forward_other_key. Qed.

Lemma Keys_selection (u : UIModel) :
  start (Keys u) = start u /\ end_ (Keys u) = end_ u
  /\ current (Keys u) = current u /\ paginator (Keys u) = paginator u.
Proof. unfold Keys. now destruct (copyInstanceID u). Qed.

(** A frame whose capacity is negative is drawn without a node row. *)
Lemma View_negative_capacity (u : UIModel) (c : Z) :
  1 <= NumNodes (UIModel_Stats u) ->
  viewCapacity u = Ok c ->
  c < 0 ->
  0 <= Paginator.Page (paginator u) ->
  GoInt.inRange (Paginator.Page (paginator u) * c + c) ->
  exists (u' : UIModel) (text : string),
    View u = Ok (u', text)
    /\ visibleCount u' = c
    /\ visibleRows u' (UIModel_Stats u) = Ok [].
Proof.
  intros HN Hcap Hc HP Hrange.
  set (P := Paginator.Page (paginator u)) in *.
  set (N := NumNodes (UIModel_Stats u)) in *.
  assert (GoInt.inRange (P * c)) as Hmul
    by (unfold GoInt.inRange, GoInt.minInt, GoInt.maxInt in *; nia).
  rewrite View_nodes by (fold N; lia).
  unfold viewNodes. unfold viewCapacity in Hcap. rewrite Hcap. run_bind.
  unfold repair, Paginator.SetTotalPages. fold N.
  destruct (Z.ltb_spec N 1) as [|_]; [lia|].
  unfold quo, rem. cbn [Paginator.PerPage Paginator.setPerPage].
  destruct (Z.eqb_spec c 0) as [|_]; [lia|]. run_bind.
  cbn [Paginator.Page Paginator.PerPage Paginator.setTotalPages
       Paginator.setPerPage paginator set_ShowPercentage].
  fold P. rewrite (mul_exact P c Hmul).
  destruct (Z.ltb_spec N (P * c)) as [|_]; [nia|].
  unfold Paginator.GetSliceBounds.
  cbn [Paginator.Page Paginator.PerPage Paginator.setTotalPages
       Paginator.setPerPage].
  fold P. rewrite (mul_exact P c Hmul), (add_exact (P * c) c Hrange).
  rewrite Z.min_l by nia.
  cbn [set_bounds set_paginator start end_ current fst snd].
  assert (GoInt.sub (P * c + c) (P * c) = c) as Hvis.
  { rewrite sub_exact; [lia|].
    unfold GoInt.inRange, GoInt.minInt, GoInt.maxInt in *. lia. }
  match goal with
  | |- context [visibleRows ?m _] => set (u1 := m)
  end.
  assert (start u1 = P * c /\ end_ u1 = P * c + c) as [Hs He]
    by (subst u1; destruct (_ <=? _); split; reflexivity).
  assert (visibleRows u1 (UIModel_Stats u) = Ok []) as Hrows.
  { unfold visibleRows. rewrite Hs, He.
    destruct (Z.leb_spec (P * c) (P * c + c)); [lia|].
    now rewrite andb_false_r. }
  rewrite Hrows. run_bind. eexists _, _. split; [reflexivity|].
  destruct (Keys_selection u1) as (HKs & HKe & _). split.
  - unfold visibleCount. now rewrite HKs, HKe, Hs, He.
  - unfold visibleRows in *. now rewrite HKs, HKe.
Qed.

End SelectionFacts.

Section NavigationFacts.
Context {L : Libs} {T : Theme}.

(** C9, as the code has it.  [down]: below the last visible index the
    cursor goes up by one; on the last visible index, when the page is
    not the last, the next page is shown with the cursor on 0; in every
    other state nothing changes.  [up]: above 0 the cursor goes down by
    one; on 0, when the page is above 0, the previous page is shown with
    the cursor on its last index; in every other state nothing changes.
    With 5 nodes and a capacity of 2 there are 3 pages, and from page 0,
    cursor 0, two, three and four [down]s lead to page 1 cursor 0, page 1
    cursor 1 and page 2 cursor 0. *)
Theorem navigation_semantics (u : UIModel) :
  GoInt.inRange (current u) ->
  GoInt.minInt <= Paginator.Page (paginator u) < GoInt.maxInt ->
  let last := GoInt.sub (visibleCount u) 1 in
  let page := Paginator.Page (paginator u) in
  let lastPage := GoInt.sub (Paginator.TotalPages (paginator u)) 1 in
  (current u < last ->
   Update u (KeyMsg "down") = Ok (set_current u (current u + 1), nilCmd, []))
  /\ (current u = last -> page <> lastPage ->
      Update u (KeyMsg "down")
      = Ok (set_current (onPage u (page + 1)) 0, nilCmd, []))
  /\ (last < current u \/ (current u = last /\ page = lastPage) ->
      Update u (KeyMsg "down") = Ok (u, nilCmd, []))
  /\ (0 < current u ->
      Update u (KeyMsg "up") = Ok (set_current u (current u - 1), nilCmd, []))
  /\ (current u = 0 -> 0 < page ->
      Update u (KeyMsg "up")
      = Ok (set_current (onPage u (page - 1))
                        (GoInt.sub (visibleCount (onPage u (page - 1))) 1),
            nilCmd, []))
  /\ (current u < 0 \/ (current u = 0 /\ page <= 0) ->
      Update u (KeyMsg "up") = Ok (u, nilCmd, []))
  /\ outcome (@run Sample.libs Sample.theme Sample.fresh
                   [Sample.resize 8; Sample.snapshotOf 5])
     = Ok (0, 2, 3, 0, 2, 0)
  /\ outcome (@run Sample.libs Sample.theme Sample.browsing
                   [Sample.down; Sample.down])
     = Ok (1, 2, 3, 2, 4, 0)
  /\ outcome (@run Sample.libs Sample.theme Sample.browsing
                   [Sample.down; Sample.down; Sample.down])
     = Ok (1, 2, 3, 2, 4, 1)
  /\ outcome (@run Sample.libs Sample.theme Sample.browsing
                   [Sample.down; Sample.down; Sample.down; Sample.down])
     = Ok (2, 2, 3, 4, 5, 0).
Proof.
  intros Hcur Hpage last page lastPage.
  unfold GoInt.inRange, GoInt.minInt, GoInt.maxInt in Hcur, Hpage.
  fold page in Hpage.
  pose proof (wrap_range (visibleCount u - 1)) as Hlast.
  fold (GoInt.sub (visibleCount u) 1) in Hlast. fold last in Hlast.
  unfold GoInt.inRange, GoInt.minInt, GoInt.maxInt in Hlast.
  assert (Update u (KeyMsg "down") = forward (moveDown u) (KeyMsg "down"))
    as Hdown by reflexivity.
  assert (Update u (KeyMsg "up") = forward (moveUp u) (KeyMsg "up"))
    as Hup by reflexivity.
  unfold moveDown in Hdown. unfold moveUp in Hup.
  fold (visibleCount u) in Hdown. fold last page lastPage in Hdown.
  fold page in Hup.
  repeat apply conj; [| | | | | |vm_compute; reflexivity..].
  - intros Hlt. rewrite Hdown, forward_down.
    destruct (Z.ltb_spec (current u) last); [|lia].
    rewrite add_exact
      by int_range.
    reflexivity.
  - intros Heq Hne. rewrite Hdown, forward_down.
    destruct (Z.ltb_spec (current u) last); [lia|].
    destruct (Z.eqb_spec (current u) last); [|lia].
    destruct (Z.eqb_spec page lastPage); [contradiction|].
    cbn [andb negb]. unfold Paginator.NextPage, Paginator.OnLastPage.
    fold page lastPage.
    destruct (Z.eqb_spec page lastPage); [contradiction|].
    cbn [negb Paginator.setPage Paginator.Page].
    rewrite add_exact
      by int_range.
    reflexivity.
  - intros Hother. rewrite Hdown, forward_down.
    destruct (Z.ltb_spec (current u) last); [lia|].
    destruct (Z.eqb_spec (current u) last);
      destruct (Z.eqb_spec page lastPage); cbn [andb negb];
      try reflexivity; lia.
  - intros Hpos. rewrite Hup, forward_up.
    destruct (Z.ltb_spec 0 (current u)); [|lia].
    rewrite sub_exact
      by int_range.
    reflexivity.
  - intros H0 Hp. rewrite Hup, forward_up.
    destruct (Z.ltb_spec 0 (current u)); [lia|].
    destruct (Z.eqb_spec (current u) 0); [|lia].
    destruct (Z.ltb_spec 0 page); [|lia].
    cbn [andb]. unfold Paginator.PrevPage. fold page.
    destruct (Z.ltb_spec 0 page); [|lia].
    cbn [Paginator.setPage Paginator.Page].
    rewrite sub_exact
      by int_range.
    reflexivity.
  - intros Hother. rewrite Hup, forward_up.
    destruct (Z.ltb_spec 0 (current u)); [lia|].
    destruct (Z.eqb_spec (current u) 0);
      destruct (Z.ltb_spec 0 page); cbn [andb];
      try reflexivity; lia.
Qed.

End NavigationFacts.

Lemma down_on_browsing_moves_the_cursor :
  @Update Sample.libs Sample.browsing (KeyMsg "down")
  = Ok (set_current Sample.browsing 1, nilCmd, []).
Proof.
  assert (GoInt.inRange (current Sample.browsing)) as Hcur
    by (vm_compute; split; discriminate).
  assert (GoInt.minInt <= Paginator.Page (paginator Sample.browsing)
          < GoInt.maxInt) as Hpage
    by (vm_compute; split; [discriminate|reflexivity]).
  destruct (@navigation_semantics Sample.libs Sample.browsing Hcur Hpage)
    as (Hdown & _).
  apply Hdown. vm_compute. reflexivity.
Defined.

(** C9 as the spec words it fails where the cursor is below 0: in the
    model reached by paging to the third page of six nodes and losing two
    of them, the cursor is -1 on page 2; [up] is neither a decrement nor a
    move to page 1: it changes nothing. *)
Lemma up_below_zero_changes_nothing :
  outcome (@run Sample.libs Sample.theme Sample.fresh
             [Sample.resize 8; Sample.snapshotOf 6; Sample.down;
              Sample.down; Sample.down; Sample.down; Sample.snapshotOf 4])
  = Ok (selection Sample.shrunk)
  /\ selection Sample.shrunk = (2, 2, 2, 4, 4, -1)
  /\ current Sample.shrunk <= 0
  /\ 0 < Paginator.Page (paginator Sample.shrunk)
  /\ @Update Sample.libs Sample.shrunk (KeyMsg "up")
     = Ok (Sample.shrunk, nilCmd, []).
Proof.
  repeat apply conj;
    first [vm_compute; reflexivity | vm_compute; discriminate].
Qed.

(** ** The cursor invariant *)

(** C1, where the code departs from it.  Six nodes on pages of two, the
    cursor taken to the third page; the snapshot shrinks to four nodes, so
    that the page starts exactly where the nodes end: the page is not
    repaired, the visible set is empty and the clamp writes -1 into the
    cursor.  When a fifth node comes back the visible set has one row and
    the cursor is still -1, outside [0, 0]; the confirm key then reads
    [Nodes[4:5][-1]] and panics.  Resizing alone does the same: a frame
    drawn at height 3 leaves the cursor at -4, and it stays there when the
    window grows to show three rows. *)
Theorem cursor_leaves_the_visible_range :
  outcome (@run Sample.libs Sample.theme Sample.fresh
             [Sample.resize 8; Sample.snapshotOf 6; Sample.down;
              Sample.down; Sample.down; Sample.down])
  = Ok (2, 2, 3, 4, 6, 0)
  /\ outcome (@run Sample.libs Sample.theme Sample.fresh
                [Sample.resize 8; Sample.snapshotOf 6; Sample.down;
                 Sample.down; Sample.down; Sample.down;
                 Sample.snapshotOf 4])
     = Ok (2, 2, 2, 4, 4, -1)
  /\ outcome (@run Sample.libs Sample.theme Sample.fresh
                [Sample.resize 8; Sample.snapshotOf 6; Sample.down;
                 Sample.down; Sample.down; Sample.down;
                 Sample.snapshotOf 4; Sample.snapshotOf 5])
     = Ok (2, 2, 3, 4, 5, -1)
  /\ @run Sample.libs Sample.theme Sample.fresh
       [Sample.resize 8; Sample.snapshotOf 6; Sample.down;
        Sample.down; Sample.down; Sample.down;
        Sample.snapshotOf 4; Sample.snapshotOf 5; Sample.key "enter"]
     = Panic IndexOutOfRange
  /\ outcome (@run Sample.libs Sample.theme Sample.fresh
                [Sample.resize 3; Sample.snapshotOf 3])
     = Ok (0, -3, -1, 0, -3, -4)
  /\ outcome (@run Sample.libs Sample.theme Sample.fresh
                [Sample.resize 3; Sample.snapshotOf 3; Sample.resize 10])
     = Ok (0, 4, 1, 0, 3, -4).
Proof. repeat apply conj; vm_compute; reflexivity. Qed.

(* ===================================================================== *)
(** * Further properties of the code *)
(* ===================================================================== *)

(** ** EventLoop: what [Update] does and leaves alone *)

Section UpdateFacts.
Context {L : Libs} {T : Theme}.

Lemma forward_spec (u : UIModel) (msg : Msg) :
  forward u msg
  = Ok (set_paginator u (fst (Paginator.Update (paginator u) msg)),
        nilCmd, []).
Proof.
  unfold forward.
  pose proof (Paginator_Update_cmd (paginator u) msg) as Hcmd.
  destruct (Paginator.Update (paginator u) msg) as [p cmd].
  cbn [snd] in Hcmd. now subst cmd.
Qed.

(** What the paginator does to the page on a message. *)
Lemma Paginator_Update_page (p : Paginator.Model) (msg : Msg) :
  Paginator.PerPage (fst (Paginator.Update p msg)) = Paginator.PerPage p
  /\ Paginator.TotalPages (fst (Paginator.Update p msg))
     = Paginator.TotalPages p
  /\ (0 <= Paginator.Page p < GoInt.maxInt ->
      0 <= Paginator.Page (fst (Paginator.Update p msg))).
Proof.
  destruct msg; cbn [Paginator.Update fst]; try (repeat split; lia).
  unfold Paginator.NextPage, Paginator.PrevPage, Paginator.OnLastPage.
  destruct (Paginator.keyMatches key Paginator.nextPageKeys).
  - destruct (Paginator.Page p =? _); cbn; repeat split; try lia.
    intros H. rewrite add_exact by int_range. lia.
  - destruct (Paginator.keyMatches key Paginator.prevPageKeys);
      [|cbn; repeat split; lia].
    destruct (Z.ltb_spec 0 (Paginator.Page p)); cbn; repeat split; try lia.
    intros Hp. rewrite sub_exact by int_range. lia.
Qed.

Lemma moveUp_frame (u : UIModel) :
  set_bounds (set_current (set_paginator (moveUp u) (paginator u))
                          (current u))
             (start u, end_ u) = u.
Proof.
  unfold moveUp. destruct u.
  cbn. destruct (0 <? _); [reflexivity|].
  destruct (_ && _); reflexivity.
Qed.

Lemma moveDown_frame (u : UIModel) :
  set_bounds (set_current (set_paginator (moveDown u) (paginator u))
                          (current u))
             (start u, end_ u) = u.
Proof.
  unfold moveDown. destruct u.
  cbn. destruct (_ <? _); [reflexivity|].
  destruct (_ && _); reflexivity.
Qed.

(** Every message but the confirm key is handled without a panic and
    without an effect on the outside world, and the command handed back is
    none, a tick or quit: only the confirm key can touch the clipboard or
    start a process. *)
Theorem Update_is_safe_but_for_enter (u : UIModel) (msg : Msg) :
  msg <> KeyMsg "enter" ->
  exists (u' : UIModel) (cmd : Cmd),
    Update u msg = Ok (u', cmd, [])
    /\ (cmd = nilCmd \/ cmd = tickCmd \/ cmd = Quit).
Proof.
  intros Hmsg. destruct msg as [w h|k|e| |]; cbn [Update].
  - eauto 6.
  - destruct (String.eqb k "up"); [rewrite forward_spec; eauto 6|].
    destruct (String.eqb k "down"); [rewrite forward_spec; eauto 6|].
    destruct (_ || _); [eauto 6|].
    destruct (String.eqb_spec k "enter") as [->|_]; [contradiction|].
    rewrite forward_spec; eauto 6.
  - destruct e; [eauto 6|]. rewrite forward_spec; eauto 6.
  - eauto 6.
  - rewrite forward_spec; eauto 6.
Qed.

(** What [Update] leaves alone. *)
Lemma Update_frame
        (u u' : UIModel) (msg : Msg) (cmd : Cmd) (effects : list Effect) :
  Update u msg = Ok (u', cmd, effects) ->
  cluster u' = cluster u
  /\ extraLabels u' = extraLabels u
  /\ nodeSorter u' = nodeSorter u
  /\ copyInstanceID u' = copyInstanceID u
  /\ nodeExec u' = nodeExec u
  /\ progress_ShowPercentage u' = progress_ShowPercentage u
  /\ keys_EnterHelp u' = keys_EnterHelp u
  /\ ((forall w h : Z, msg <> WindowSizeMsg w h) ->
      height u' = height u /\ help_Width u' = help_Width u)
  /\ ((forall e : string, msg <> execFinishedMsg (Some e)) ->
      err u' = err u).
Proof.
  intros HU.
  assert (forall v : UIModel,
             forward v msg = Ok (u', cmd, effects) ->
             set_paginator u' (paginator v) = v) as Hforward.
  { intros v Hv. rewrite forward_spec in Hv. injection Hv as <- _ _.
    now destruct v. }
  assert (forall v : UIModel,
             set_paginator u' (paginator v) = v ->
             cluster u' = cluster v
             /\ extraLabels u' = extraLabels v
             /\ nodeSorter u' = nodeSorter v
             /\ copyInstanceID u' = copyInstanceID v
             /\ nodeExec u' = nodeExec v
             /\ progress_ShowPercentage u' = progress_ShowPercentage v
             /\ keys_EnterHelp u' = keys_EnterHelp v
             /\ height u' = height v /\ help_Width u' = help_Width v
             /\ err u' = err v) as Hsame.
  { intros v <-. repeat apply conj; reflexivity. }
  destruct msg as [w h|k|e| |]; cbn [Update] in HU.
  - injection HU as <- _ _.
    repeat apply conj; try reflexivity; intros Hno; now destruct (Hno w h).
  - assert (u' = u \/ set_paginator u' (paginator (moveUp u)) = moveUp u
            \/ set_paginator u' (paginator (moveDown u)) = moveDown u
            \/ set_paginator u' (paginator u) = u) as Hcases.
    { destruct (String.eqb k "up"); [apply Hforward in HU; tauto|].
      destruct (String.eqb k "down"); [apply Hforward in HU; tauto|].
      destruct (_ || _); [injection HU as <- _ _; tauto|].
      destruct (String.eqb k "enter"); [|apply Hforward in HU; tauto].
      destruct (openNode u (KeyMsg k)) as [[c es]|p]; [|discriminate HU].
      injection HU as <- _ _. tauto. }
    destruct Hcases as [->|[Hc|[Hc|Hc]]].
    + repeat apply conj; try reflexivity; intros _; now split.
    + apply Hsame in Hc. rewrite <- (moveUp_frame u).
      cbn [set_bounds set_current set_paginator cluster extraLabels
           nodeSorter copyInstanceID nodeExec progress_ShowPercentage
           keys_EnterHelp height help_Width err].
      intuition congruence.
    + apply Hsame in Hc. rewrite <- (moveDown_frame u).
      cbn [set_bounds set_current set_paginator cluster extraLabels
           nodeSorter copyInstanceID nodeExec progress_ShowPercentage
           keys_EnterHelp height help_Width err].
      intuition congruence.
    + apply Hsame in Hc. intuition congruence.
  - destruct e as [e|].
    + injection HU as <- _ _.
      repeat apply conj; try reflexivity; intros Hno;
        first [now split | now destruct (Hno e)].
    + apply Hforward, Hsame in HU. intuition congruence.
  - injection HU as <- _ _.
    repeat apply conj; try reflexivity; intros _; now split.
  - apply Hforward, Hsame in HU. intuition congruence.
Qed.

(** [Update] never touches the configuration of the model (cluster, extra
    labels, sorter, copy mode, command template, gauge flag, help text);
    the window size changes on a resize message only and the error on a
    failed command only. *)
Theorem Update_keeps_configuration
        (u u' : UIModel) (msg : Msg) (cmd : Cmd) (effects : list Effect) :
  Update u msg = Ok (u', cmd, effects) ->
  cluster u' = cluster u
  /\ extraLabels u' = extraLabels u
  /\ nodeSorter u' = nodeSorter u
  /\ copyInstanceID u' = copyInstanceID u
  /\ nodeExec u' = nodeExec u
  /\ progress_ShowPercentage u' = progress_ShowPercentage u
  /\ keys_EnterHelp u' = keys_EnterHelp u
  /\ ((forall w h : Z, msg <> WindowSizeMsg w h) ->
      height u' = height u /\ help_Width u' = help_Width u)
  /\ ((forall e : string, msg <> execFinishedMsg (Some e)) ->
      err u' = err u).
Proof. exact (Update_frame u u' msg cmd effects). Qed.

(** Only the keys [up] and [down] move the cursor or the visible bounds:
    after any other message they are what they were (a resize or a page
    key shows its effect on them at the next frame only), and a message
    that is not a key leaves the page alone as well. *)
Theorem Update_moves_the_cursor_on_up_and_down_only
        (u u' : UIModel) (msg : Msg) (cmd : Cmd) (effects : list Effect) :
  Update u msg = Ok (u', cmd, effects) ->
  msg <> KeyMsg "up" -> msg <> KeyMsg "down" ->
  start u' = start u /\ end_ u' = end_ u /\ current u' = current u
  /\ ((forall k : string, msg <> KeyMsg k) -> paginator u' = paginator u).
Proof.
  intros HU Hup Hdown.
  assert (forward u msg = Ok (u', cmd, effects) ->
          start u' = start u /\ end_ u' = end_ u /\ current u' = current u
          /\ ((forall k : string, msg <> KeyMsg k) ->
              paginator u' = paginator u)) as Hforward.
  { intros Hv. rewrite forward_spec in Hv. injection Hv as <- _ _.
    repeat split. intros Hno.
    destruct msg; try reflexivity. now destruct (Hno key). }
  destruct msg as [w h|k|e| |]; cbn [Update] in HU.
  - injection HU as <- _ _. repeat split.
  - destruct (String.eqb_spec k "up") as [->|_]; [contradiction|].
    destruct (String.eqb_spec k "down") as [->|_]; [contradiction|].
    destruct (_ || _).
    { injection HU as <- _ _. repeat split. }
    destruct (String.eqb k "enter"); [|now apply Hforward].
    destruct (openNode u (KeyMsg k)) as [[c es]|p]; [|discriminate HU].
    injection HU as <- _ _. repeat split.
  - destruct e as [e|]; [|now apply Hforward].
    injection HU as <- _ _. repeat split.
  - injection HU as <- _ _. repeat split.
  - now apply Hforward.
Qed.

End UpdateFacts.

Section CursorFacts.
Context {L : Libs} {T : Theme}.

Lemma set_current_id (u : UIModel) : set_current u (current u) = u.
Proof. now destruct u. Qed.

Lemma moveUp_page (u : UIModel) :
  0 <= Paginator.Page (paginator u) < GoInt.maxInt ->
  0 <= Paginator.Page (paginator (moveUp u)) < GoInt.maxInt.
Proof.
  intros Hp. unfold moveUp. destruct (0 <? current u); [exact Hp|].
  destruct (Z.ltb_spec 0 (Paginator.Page (paginator u)));
    rewrite ?andb_false_r; [|exact Hp].
  destruct (current u =? 0); [|exact Hp].
  cbn. unfold Paginator.PrevPage.
  destruct (Z.ltb_spec 0 (Paginator.Page (paginator u))); [|lia].
  cbn. rewrite sub_exact by int_range. lia.
Qed.

Lemma moveDown_page (u : UIModel) :
  0 <= Paginator.Page (paginator u) < GoInt.maxInt ->
  0 <= Paginator.Page (paginator (moveDown u)).
Proof.
  intros Hp. unfold moveDown. destruct (_ <? _); [cbn; lia|].
  destruct (_ && _); [|lia].
  cbn. unfold Paginator.NextPage.
  destruct (negb _); [|lia].
  cbn. rewrite add_exact by int_range. lia.
Qed.

(** The page index never becomes negative in [Update]: whatever the
    message, a page that is at least 0 (and below the largest [int]) is
    at least 0 afterwards. *)
Theorem Update_keeps_the_page_non_negative
        (u u' : UIModel) (msg : Msg) (cmd : Cmd) (effects : list Effect) :
  Update u msg = Ok (u', cmd, effects) ->
  0 <= Paginator.Page (paginator u) < GoInt.maxInt ->
  0 <= Paginator.Page (paginator u').
Proof.
  intros HU Hp.
  assert (forall v : UIModel,
             0 <= Paginator.Page (paginator v) < GoInt.maxInt ->
             forward v msg = Ok (u', cmd, effects) ->
             0 <= Paginator.Page (paginator u')) as Hforward.
  { intros v Hv Hf. rewrite forward_spec in Hf. injection Hf as <- _ _.
    now apply Paginator_Update_page. }
  destruct msg as [w h|k|e| |]; cbn [Update] in HU.
  - injection HU as <- _ _. cbn. lia.
  - destruct (String.eqb_spec k "up") as [->|_].
    { rewrite forward_up in HU. injection HU as <- _ _.
      now apply moveUp_page. }
    destruct (String.eqb_spec k "down") as [->|_].
    { rewrite forward_down in HU. injection HU as <- _ _.
      now apply moveDown_page. }
    destruct (_ || _); [injection HU as <- _ _; lia|].
    destruct (String.eqb k "enter"); [|now apply (Hforward u)].
    destruct (openNode u (KeyMsg k)) as [[c es]|p]; [|discriminate HU].
    injection HU as <- _ _. lia.
  - destruct e as [e|]; [|now apply (Hforward u)].
    injection HU as <- _ _. cbn. lia.
  - injection HU as <- _ _. lia.
  - now apply (Hforward u).
Qed.

(** Within a page [down] and [up] undo each other: from a cursor that is
    at least 0 and below the last visible index, [down] followed by [up]
    gives the model back, and from a cursor above 0 and at most the last
    visible index so does [up] followed by [down]. *)
Theorem down_and_up_undo_each_other (u : UIModel) :
  GoInt.inRange (current u) ->
  (0 <= current u < GoInt.sub (visibleCount u) 1 ->
   exists u1 : UIModel,
     Update u (KeyMsg "down") = Ok (u1, nilCmd, [])
     /\ current u1 = current u + 1
     /\ Update u1 (KeyMsg "up") = Ok (u, nilCmd, []))
  /\ (0 < current u <= GoInt.sub (visibleCount u) 1 ->
      exists u1 : UIModel,
        Update u (KeyMsg "up") = Ok (u1, nilCmd, [])
        /\ current u1 = current u - 1
        /\ Update u1 (KeyMsg "down") = Ok (u, nilCmd, [])).
Proof.
  intros Hcur.
  pose proof (wrap_range (visibleCount u - 1)) as Hlast.
  fold (GoInt.sub (visibleCount u) 1) in Hlast.
  assert (Update u (KeyMsg "down") = forward (moveDown u) (KeyMsg "down"))
    as Hdown by reflexivity.
  assert (Update u (KeyMsg "up") = forward (moveUp u) (KeyMsg "up"))
    as Hup by reflexivity.
  split.
  - intros [H0 Hlt]. exists (set_current u (current u + 1)).
    assert (moveDown u = set_current u (current u + 1)) as Hmove.
    { unfold moveDown. fold (visibleCount u).
      destruct (Z.ltb_spec (current u) (GoInt.sub (visibleCount u) 1));
        [|lia].
      now rewrite add_exact by int_range. }
    rewrite Hdown, Hmove, forward_down. split; [reflexivity|].
    split; [reflexivity|].
    change (Update (set_current u (current u + 1)) (KeyMsg "up"))
      with (forward (moveUp (set_current u (current u + 1))) (KeyMsg "up")).
    rewrite forward_up. do 2 f_equal. unfold moveUp.
    cbn [current set_current].
    destruct (Z.ltb_spec 0 (current u + 1)); [|lia].
    rewrite sub_exact by int_range.
    replace (current u + 1 - 1) with (current u) by lia.
    now destruct u.
  - intros [H0 Hle]. exists (set_current u (current u - 1)).
    assert (moveUp u = set_current u (current u - 1)) as Hmove.
    { unfold moveUp. destruct (Z.ltb_spec 0 (current u)); [|lia].
      now rewrite sub_exact by int_range. }
    rewrite Hup, Hmove, forward_up. split; [reflexivity|].
    split; [reflexivity|].
    change (Update (set_current u (current u - 1)) (KeyMsg "down"))
      with (forward (moveDown (set_current u (current u - 1)))
                    (KeyMsg "down")).
    rewrite forward_down. do 2 f_equal. unfold moveDown.
    cbn [current set_current start end_]. fold (visibleCount u).
    destruct (Z.ltb_spec (current u - 1) (GoInt.sub (visibleCount u) 1));
      [|lia].
    rewrite add_exact by int_range.
    replace (current u - 1 + 1) with (current u) by lia.
    now destruct u.
Qed.

End CursorFacts.

Lemma quit_key_is_safe_on_browsing :
  exists (u' : UIModel) (cmd : Cmd),
    @Update Sample.libs Sample.browsing (KeyMsg "q") = Ok (u', cmd, [])
    /\ (cmd = nilCmd \/ cmd = tickCmd \/ cmd = Quit).
Proof. apply Update_is_safe_but_for_enter. discriminate. Defined.

Lemma down_keeps_the_configuration_of_browsing :
  @Update Sample.libs Sample.browsing (KeyMsg "down")
  = Ok (set_current Sample.browsing 1, nilCmd, [])
  /\ cluster (set_current Sample.browsing 1) = cluster Sample.browsing
  /\ height (set_current Sample.browsing 1) = height Sample.browsing
  /\ err (set_current Sample.browsing 1) = err Sample.browsing.
Proof.
  assert (@Update Sample.libs Sample.browsing (KeyMsg "down")
          = Ok (set_current Sample.browsing 1, nilCmd, [])) as HU
    by (vm_compute; reflexivity).
  split; [exact HU|].
  destruct (@Update_keeps_configuration Sample.libs _ _ _ _ _ HU)
    as (Hcluster & _ & _ & _ & _ & _ & _ & Hsize & Herr).
  split; [exact Hcluster|]. split.
  - apply Hsize. discriminate.
  - apply Herr. discriminate.
Defined.

Lemma next_page_key_leaves_the_cursor_of_browsing :
  let u' := set_paginator Sample.browsing
              (Paginator.NextPage (paginator Sample.browsing)) in
  @Update Sample.libs Sample.browsing (KeyMsg "right") = Ok (u', nilCmd, [])
  /\ start u' = start Sample.browsing
  /\ end_ u' = end_ Sample.browsing
  /\ current u' = current Sample.browsing.
Proof.
  intros u'.
  assert (@Update Sample.libs Sample.browsing (KeyMsg "right")
          = Ok (u', nilCmd, [])) as HU by (vm_compute; reflexivity).
  split; [exact HU|].
  destruct (@Update_moves_the_cursor_on_up_and_down_only Sample.libs
              _ _ _ _ _ HU) as (Hs & He & Hc & _); [discriminate..|].
  auto.
Defined.

Lemma previous_page_key_on_the_first_page_of_browsing :
  0 <= Paginator.Page
         (paginator
            (set_paginator Sample.browsing
               (Paginator.PrevPage (paginator Sample.browsing)))).
Proof.
  apply (@Update_keeps_the_page_non_negative Sample.libs
           Sample.browsing _ (KeyMsg "left") nilCmd []).
  - vm_compute. reflexivity.
  - vm_compute. split; [discriminate|reflexivity].
Defined.

Lemma down_then_up_on_browsing :
  exists u1 : UIModel,
    @Update Sample.libs Sample.browsing (KeyMsg "down") = Ok (u1, nilCmd, [])
    /\ current u1 = current Sample.browsing + 1
    /\ @Update Sample.libs u1 (KeyMsg "up") = Ok (Sample.browsing, nilCmd, []).
Proof.
  assert (GoInt.inRange (current Sample.browsing)) as Hcur
    by (vm_compute; split; discriminate).
  apply (proj1 (@down_and_up_undo_each_other Sample.libs
                  Sample.browsing Hcur)).
  vm_compute. split; [discriminate|reflexivity].
Defined.

(** ** RenderPipeline: what a frame measures and leaves alone *)

Section FrameFacts.
Context {L : Libs} {T : Theme}.

Lemma countNewlines_app (a b : string) :
  countNewlines (a +:+ b) = countNewlines a + countNewlines b.
Proof.
  induction a as [|c a IH]; [reflexivity|].
  change (countNewlines (String c (a +:+ b))
          = countNewlines (String c a) + countNewlines b).
  cbn [countNewlines]. rewrite IH. lia.
Qed.

Lemma countNewlines_suffix (a b : string) :
  countNewlines b <= countNewlines (a +:+ b).
Proof.
  rewrite countNewlines_app. pose proof (countNewlines_nonneg a). lia.
Qed.

(** Bounding a text from below by the newlines of its tail. *)
Ltac drop_prefixes :=
  repeat (etransitivity; [|apply countNewlines_suffix]).

(** Every tracked resource costs a node at least one line, and the summary
    as well: the text of a node and the text of the summary hold at least
    as many newlines as there are resources. *)
Theorem one_line_per_resource_at_least
        (u : UIModel) (n : Node) (stats : Stats) (rs : list string)
        (nodeIndex : Z) :
  Z.of_nat (List.length rs) <= countNewlines (writeNodeInfo u n rs nodeIndex)
  /\ Z.of_nat (List.length rs)
     <= countNewlines (snd (writeClusterSummary u rs stats)).
Proof.
  split.
  - unfold writeNodeInfo. generalize true as first.
    induction rs as [|res rs IH]; intros first; [reflexivity|].
    cbn [writeNodeLines List.length]. rewrite Nat2Z.inj_succ.
    rewrite countNewlines_app, countNewlines_app.
    change (countNewlines NL) with 1.
    specialize (IH false).
    match goal with
    | |- _ <= countNewlines ?line + _ =>
        pose proof (countNewlines_nonneg line)
    end.
    lia.
  - unfold writeClusterSummary. generalize true as first. revert u.
    induction rs as [|res rs IH]; intros u first; [reflexivity|].
    cbn [writeSummaryLines List.length]. rewrite Nat2Z.inj_succ.
    specialize (IH (set_ShowPercentage u false) false).
    destruct (writeSummaryLines (set_ShowPercentage u false) stats false rs)
      as [u' more].
    cbn [snd] in *. rewrite countNewlines_app.
    match goal with
    | |- _ <= countNewlines ?line + _ =>
        assert (1 <= countNewlines line)
    end; [|lia].
    destruct first; drop_prefixes; reflexivity.
Qed.

(** [computeItemsPerPage] never divides by zero: it panics on an empty node
    slice, where it reads [nodes[0]], and nowhere else. *)
Theorem computeItemsPerPage_panics_on_no_node_only
        (u : UIModel) (nodes : list Node) (b : string) :
  (nodes = [] -> computeItemsPerPage u nodes b = Panic IndexOutOfRange)
  /\ (nodes <> [] ->
      exists c : Z,
        computeItemsPerPage u nodes b = Ok c /\ GoInt.inRange c).
Proof.
  split; [intros ->; reflexivity|].
  intros Hne. destruct nodes as [|n0 rest]; [contradiction|].
  unfold computeItemsPerPage.
  change (index (n0 :: rest) 0) with (Ok n0). run_bind. unfold quo.
  set (lines := countNewlines
                  (writeNodeInfo u n0 (resources (cluster u)) 0)).
  assert (((if lines =? 0 then 1 else lines) =? 0) = false) as ->.
  { destruct (Z.eqb_spec lines 0); [reflexivity|]. now apply Z.eqb_neq. }
  run_bind. eexists. split; [reflexivity|]. apply wrap_range.
Qed.

(** What [repair] writes: the capacity, bounds taken from the paginator
    for the node count, and a cursor that is clamped from above only. *)
Lemma repair_spec (u u' : UIModel) (stats : Stats) (c : Z) :
  repair u stats c = Ok u' ->
  Paginator.PerPage (paginator u') = c
  /\ (start u', end_ u')
     = Paginator.GetSliceBounds (paginator u') (NumNodes stats)
  /\ current u'
     = (if visibleCount u' <=? current u
        then GoInt.sub (visibleCount u') 1 else current u)
  /\ set_current
       (set_bounds (set_paginator u' (paginator u)) (start u, end_ u))
       (current u) = u.
Proof.
  unfold repair. intros H.
  destruct (Paginator.SetTotalPages
              (Paginator.setPerPage (paginator u) c) (NumNodes stats))
    as [p|] eqn:Hp; [|discriminate H].
  assert (Paginator.PerPage p = c) as Hper.
  { unfold Paginator.SetTotalPages in Hp.
    destruct (NumNodes stats <? 1); [now injection Hp as <-|].
    destruct (quo _ _); [|discriminate Hp].
    destruct (rem _ _); [|discriminate Hp].
    run_bind. now injection Hp as <-. }
  cbn [mbind Result_bind] in H. cbv zeta in H.
  cbn [set_bounds set_paginator start end_ current fst snd] in H.
  match type of H with
  | context [Paginator.GetSliceBounds ?q _] => set (p' := q) in H
  end.
  set (b := Paginator.GetSliceBounds p' (NumNodes stats)) in H.
  assert (Paginator.PerPage p' = c) as Hper'
    by (subst p'; now destruct (_ <? _)).
  destruct (GoInt.sub (snd b) (fst b) <=? current u) eqn:Hle;
    injection H as <-; unfold visibleCount;
    cbn [set_bounds set_paginator set_current start end_ current paginator
         fst snd];
    rewrite Hle; repeat split; first [assumption | now destruct u].
Qed.

End FrameFacts.

Section ViewFacts.
Context {L : Libs} {T : Theme}.

Lemma Keys_frame (u : UIModel) :
  set_EnterHelp (Keys u) (keys_EnterHelp u) = u.
Proof. unfold Keys. destruct (copyInstanceID u); now destruct u. Qed.

Lemma View_empty (u : UIModel) :
  NumNodes (UIModel_Stats u) = 0 ->
  exists text : string,
    View u = Ok (Keys (set_ShowPercentage u true), text).
Proof.
  intros HN. unfold View, writeClusterSummary.
  pose proof (writeSummaryLines_flag u (UIModel_Stats u) true
                (resources (cluster u))) as Hflag.
  destruct (writeSummaryLines u (UIModel_Stats u) true
              (resources (cluster u))) as [u0 summary].
  cbn [fst] in Hflag. rewrite Hflag, HN. cbn [Z.eqb]. eauto.
Qed.

(** How a frame that was drawn came about: either the snapshot has no
    node and nothing but the gauge flag and the help text was touched, or
    the capacity was measured, the page and the cursor repaired for it and
    the visible rows cut out. *)
Lemma View_result (u u' : UIModel) (text : string) :
  View u = Ok (u', text) ->
  (NumNodes (UIModel_Stats u) = 0
   /\ u' = Keys (set_ShowPercentage u true))
  \/ (NumNodes (UIModel_Stats u) <> 0
      /\ exists (c : Z) (u1 : UIModel) (rows : list Node),
          viewCapacity u = Ok c
          /\ repair (set_ShowPercentage u true) (UIModel_Stats u) c = Ok u1
          /\ visibleRows u1 (UIModel_Stats u) = Ok rows
          /\ u' = Keys u1).
Proof.
  intros HV. destruct (Z.eq_dec (NumNodes (UIModel_Stats u)) 0) as [H0|Hne].
  - left. split; [exact H0|].
    destruct (View_empty u H0) as [text' Hv]. congruence.
  - right. split; [exact Hne|]. rewrite View_nodes in HV by exact Hne.
    unfold viewNodes in HV. fold (viewCapacity u) in HV.
    destruct (viewCapacity u) as [c|]; [|discriminate HV].
    cbn [mbind Result_bind] in HV.
    destruct (repair (set_ShowPercentage u true) (UIModel_Stats u) c)
      as [u1|] eqn:Hr; [|discriminate HV].
    cbn [mbind Result_bind] in HV.
    destruct (visibleRows u1 (UIModel_Stats u)) as [rows|] eqn:Hrows;
      [|discriminate HV].
    cbn [mbind Result_bind] in HV. injection HV as <- _.
    exists c, u1, rows. auto.
Qed.

(** With no node in the snapshot a frame is always drawn and the selection
    logic is not run: page, capacity, page count, bounds and cursor are
    what they were. *)
Theorem View_without_nodes_keeps_the_selection (u : UIModel) :
  NumNodes (UIModel_Stats u) = 0 ->
  exists (u' : UIModel) (text : string),
    View u = Ok (u', text) /\ selection u' = selection u.
Proof.
  intros HN. destruct (View_empty u HN) as [text Hv].
  exists (Keys (set_ShowPercentage u true)), text. split; [exact Hv|].
  unfold selection.
  destruct (Keys_selection (set_ShowPercentage u true))
    as (-> & -> & -> & ->).
  reflexivity.
Qed.

(** What [View] leaves alone. *)
Lemma View_frame (u u' : UIModel) (text : string) :
  View u = Ok (u', text) ->
  cluster u' = cluster u
  /\ height u' = height u
  /\ help_Width u' = help_Width u
  /\ extraLabels u' = extraLabels u
  /\ nodeSorter u' = nodeSorter u
  /\ err u' = err u
  /\ copyInstanceID u' = copyInstanceID u
  /\ nodeExec u' = nodeExec u
  /\ progress_ShowPercentage u' = true.
Proof.
  intros HV.
  assert (exists u1 : UIModel,
             u' = Keys u1
             /\ set_current
                  (set_bounds
                     (set_paginator u1 (paginator u)) (start u, end_ u))
                  (current u)
                = set_ShowPercentage u true) as (u1 & -> & Hu1).
  { apply View_result in HV as [[_ ->]|(_ & c & u1 & rows & _ & Hr & _ & ->)].
    - exists (set_ShowPercentage u true). split; [reflexivity|].
      now destruct u.
    - exists u1. split; [reflexivity|].
      now apply repair_spec in Hr as (_ & _ & _ & Hr). }
  rewrite <- (Keys_frame u1).
  assert (forall v w : UIModel,
             set_current
               (set_bounds (set_paginator v (paginator u)) (start u, end_ u))
               (current u) = w ->
             cluster v = cluster w /\ height v = height w
             /\ help_Width v = help_Width w
             /\ extraLabels v = extraLabels w
             /\ nodeSorter v = nodeSorter w /\ err v = err w
             /\ copyInstanceID v = copyInstanceID w
             /\ nodeExec v = nodeExec w
             /\ progress_ShowPercentage v = progress_ShowPercentage w)
    as Hsame.
  { intros v w <-. repeat split. }
  apply Hsame in Hu1.
  pose proof (Keys_frame u1) as Hk.
  assert (forall v w : UIModel,
             set_EnterHelp v (keys_EnterHelp w) = w ->
             cluster v = cluster w /\ height v = height w
             /\ help_Width v = help_Width w
             /\ extraLabels v = extraLabels w
             /\ nodeSorter v = nodeSorter w /\ err v = err w
             /\ copyInstanceID v = copyInstanceID w
             /\ nodeExec v = nodeExec w
             /\ progress_ShowPercentage v = progress_ShowPercentage w)
    as Hsame'.
  { intros v w <-. repeat split. }
  apply Hsame' in Hk. rewrite (Keys_frame u1).
  cbn [set_ShowPercentage cluster height help_Width extraLabels nodeSorter
       err copyInstanceID nodeExec progress_ShowPercentage] in Hu1.
  intuition congruence.
Qed.

(** A frame never touches the cluster, the window size, the extra labels,
    the sorter, the error, the copy mode or the command template, and it
    always leaves the gauge showing percentages. *)
Theorem View_keeps_configuration (u u' : UIModel) (text : string) :
  View u = Ok (u', text) ->
  cluster u' = cluster u
  /\ height u' = height u
  /\ help_Width u' = help_Width u
  /\ extraLabels u' = extraLabels u
  /\ nodeSorter u' = nodeSorter u
  /\ err u' = err u
  /\ copyInstanceID u' = copyInstanceID u
  /\ nodeExec u' = nodeExec u
  /\ progress_ShowPercentage u' = true.
Proof. exact (View_frame u u' text). Qed.

(** After a frame drawn with nodes the cursor is never above the last
    visible index the code computes, whatever the capacity and the page:
    the clamp of [View] bounds the cursor from above always (and from below
    never, which is the defect of C1). *)
Theorem View_bounds_the_cursor_from_above
        (u u' : UIModel) (text : string) :
  View u = Ok (u', text) ->
  NumNodes (UIModel_Stats u) <> 0 ->
  GoInt.inRange (current u) ->
  current u' <= GoInt.sub (visibleCount u') 1.
Proof.
  intros HV HN Hcur.
  apply View_result in HV as [[H0 _]|(_ & c & u1 & rows & _ & Hr & _ & ->)];
    [contradiction|].
  apply repair_spec in Hr as (_ & _ & Hc & _).
  cbn [current set_ShowPercentage] in Hc.
  unfold visibleCount in *.
  destruct (Keys_selection u1) as (-> & -> & -> & _).
  pose proof (wrap_range (end_ u1 - start u1)) as Hvis.
  fold (GoInt.sub (end_ u1) (start u1)) in Hvis.
  rewrite Hc.
  destruct (Z.leb_spec (GoInt.sub (end_ u1) (start u1)) (current u));
    [lia|].
  rewrite (sub_exact (GoInt.sub (end_ u1) (start u1)) 1) by int_range.
  lia.
Qed.

End ViewFacts.

Lemma frame_of_the_fresh_model :
  exists (u' : UIModel) (text : string),
    @View Sample.libs Sample.theme Sample.fresh = Ok (u', text)
    /\ selection u' = selection Sample.fresh.
Proof.
  apply View_without_nodes_keeps_the_selection. vm_compute. reflexivity.
Defined.

Lemma frame_keeps_the_configuration_of_alone :
  @View Sample.libs Sample.theme Sample.alone
  = Ok (Sample.drawn Sample.alone, Sample.frame Sample.alone)
  /\ cluster (Sample.drawn Sample.alone) = cluster Sample.alone
  /\ height (Sample.drawn Sample.alone) = height Sample.alone
  /\ progress_ShowPercentage (Sample.drawn Sample.alone) = true.
Proof.
  assert (@View Sample.libs Sample.theme Sample.alone
          = Ok (Sample.drawn Sample.alone, Sample.frame Sample.alone))
    as HV by (vm_compute; reflexivity).
  split; [exact HV|].
  destruct (@View_keeps_configuration Sample.libs Sample.theme _ _ _ HV)
    as (Hcluster & Hheight & _ & _ & _ & _ & _ & _ & Hflag).
  auto.
Defined.

Lemma frame_clamps_the_cursor_of_alone :
  current Sample.alone = 1
  /\ current (Sample.drawn Sample.alone)
     <= GoInt.sub (visibleCount (Sample.drawn Sample.alone)) 1.
Proof.
  split; [vm_compute; reflexivity|].
  apply (@View_bounds_the_cursor_from_above Sample.libs Sample.theme
           Sample.alone _ (Sample.frame Sample.alone)).
  - vm_compute. reflexivity.
  - vm_compute. discriminate.
  - vm_compute. split; discriminate.
Defined.

(** ** SelectionState: the lookup and what a frame guarantees it *)

Section LookupFacts.
Context {L : Libs} {T : Theme}.

Lemma slice_index (A : Type) (s : list A) (low high i : Z) (a : A) :
  (visible ← slice s low high; index visible i) = Ok a
  <-> 0 <= low <= high /\ high <= Z.of_nat (List.length s)
      /\ 0 <= i < high - low
      /\ nth_error s (Z.to_nat (low + i)) = Some a.
Proof.
  unfold slice, index.
  destruct (Z.leb_spec 0 low); cbn [andb];
    [|split; [discriminate|lia]].
  destruct (Z.leb_spec low high); cbn [andb];
    [|split; [discriminate|lia]].
  destruct (Z.leb_spec high (Z.of_nat (List.length s))); cbn [andb];
    [|split; [discriminate|lia]].
  run_bind.
  destruct (Z.leb_spec 0 i); [|split; [discriminate|lia]].
  rewrite nth_error_firstn, nth_error_skipn.
  replace (Z.to_nat low + Z.to_nat i)%nat with (Z.to_nat (low + i)) by lia.
  destruct (Nat.ltb_spec (Z.to_nat i) (Z.to_nat (high - low))).
  - destruct (nth_error s (Z.to_nat (low + i))) as [x|] eqn:Hx.
    + split.
      * intros [= ->]. repeat split; lia.
      * intros (_ & _ & _ & [= ->]). reflexivity.
    + split; [discriminate|]. intros (_ & _ & _ & ?). discriminate.
  - split; [discriminate|lia].
Qed.

Lemma SelectedNode_lookup (u : UIModel) (n : Node) :
  0 <= start u <= end_ u
  /\ end_ u <= Z.of_nat (List.length (Nodes (UIModel_Stats u)))
  /\ 0 <= current u < end_ u - start u
  /\ nth_error (Nodes (UIModel_Stats u))
               (Z.to_nat (start u + current u)) = Some n ->
  SelectedNode u = Ok n.
Proof. unfold SelectedNode. apply slice_index. Qed.

Lemma computeItemsPerPage_nonempty
      (u : UIModel) (n0 : Node) (rest : list Node) (b : string) :
  exists c : Z,
    computeItemsPerPage u (n0 :: rest) b = Ok c /\ GoInt.inRange c.
Proof.
  unfold computeItemsPerPage.
  change (index (n0 :: rest) 0) with (Ok n0). run_bind. unfold quo.
  set (lines := countNewlines
                  (writeNodeInfo u n0 (resources (cluster u)) 0)).
  assert (((if lines =? 0 then 1 else lines) =? 0) = false) as ->.
  { destruct (Z.eqb_spec lines 0); [reflexivity|]. now apply Z.eqb_neq. }
  run_bind. eexists. split; [reflexivity|]. apply wrap_range.
Qed.

Lemma repair_ok (u : UIModel) (stats : Stats) (c : Z) :
  c <> 0 -> exists u' : UIModel, repair u stats c = Ok u'.
Proof.
  intros Hc. unfold repair, Paginator.SetTotalPages, quo, rem.
  cbn [Paginator.PerPage Paginator.setPerPage].
  destruct (Z.eqb_spec c 0); [contradiction|].
  destruct (NumNodes stats <? 1); run_bind; eauto.
Qed.

(** The slice [View] cuts is within the nodes whenever the node count of
    the snapshot is the length of its node list. *)
Lemma visibleRows_ok (u u' : UIModel) (stats : Stats) (c : Z) :
  repair u stats c = Ok u' ->
  NumNodes stats = Z.of_nat (List.length (Nodes stats)) ->
  exists rows : list Node, visibleRows u' stats = Ok rows.
Proof.
  intros Hr HN. apply repair_spec in Hr as (_ & Hb & _).
  unfold Paginator.GetSliceBounds in Hb. injection Hb as Hs He.
  unfold visibleRows, slice.
  destruct (Z.leb_spec 0 (start u')); cbn [andb]; [|eauto].
  destruct (Z.leb_spec (start u') (end_ u')); cbn [andb]; [|eauto].
  destruct (Z.leb_spec (end_ u') (Z.of_nat (List.length (Nodes stats))));
    [eauto|lia].
Qed.

(** A frame fails in one way only: when the node count of the snapshot is
    the length of its node list, [View] panics exactly when the capacity
    it measures is 0, and the panic is the division by zero. *)
Theorem View_panics_on_zero_capacity_only (u : UIModel) (p : PanicReason) :
  NumNodes (UIModel_Stats u)
  = Z.of_nat (List.length (Nodes (UIModel_Stats u))) ->
  View u = Panic p
  <-> p = IntegerDivideByZero /\ viewCapacity u = Ok 0.
Proof.
  intros HN. set (stats := UIModel_Stats u) in *.
  destruct (Nodes stats) as [|n0 rest] eqn:Hnodes.
  - cbn [List.length Z.of_nat] in HN.
    destruct (View_empty u HN) as [text Hv]. split.
    + intros HV. rewrite Hv in HV. discriminate HV.
    + intros [_ Hcap]. unfold viewCapacity in Hcap.
      fold stats in Hcap. rewrite Hnodes in Hcap. discriminate Hcap.
  - assert (NumNodes stats <> 0) as Hne
        by (rewrite HN; cbn [List.length]; lia).
    rewrite View_nodes by exact Hne. fold stats.
    unfold viewNodes, viewCapacity. fold stats. rewrite Hnodes.
    destruct (computeItemsPerPage_nonempty
                (set_ShowPercentage u true) n0 rest (viewHeader u))
      as (c & -> & _).
    run_bind. destruct (Z.eq_dec c 0) as [->|Hc].
    + unfold repair, Paginator.SetTotalPages.
      destruct (Z.ltb_spec (NumNodes stats) 1);
        [rewrite HN in *; cbn [List.length] in *; lia|].
      cbn. split; [intros [= <-]; now split|intros [-> _]; reflexivity].
    + destruct (repair_ok (set_ShowPercentage u true) stats c Hc)
        as [u1 Hr].
      rewrite Hr. run_bind.
      destruct (visibleRows_ok _ _ _ _ Hr) as [rows ->].
      { rewrite Hnodes. exact HN. }
      run_bind. split; [discriminate|].
      intros [_ [= ->]]. contradiction.
Qed.

End LookupFacts.

Lemma frame_of_cramped_panics_on_the_division_only :
  @View Sample.libs Sample.theme Sample.cramped = Panic IndexOutOfRange
  <-> IndexOutOfRange = IntegerDivideByZero
      /\ @viewCapacity Sample.libs Sample.theme Sample.cramped = Ok 0.
Proof.
  apply View_panics_on_zero_capacity_only. vm_compute. reflexivity.
Defined.

Section RangeFacts.
Context {L : Libs} {T : Theme}.

(** The arithmetic of [repair] for a positive capacity [c], a page [P]
    that does not start exactly at the node count [N] and a cursor that is
    at least 0. *)
Lemma repair_in_range (u : UIModel) (stats : Stats) (c : Z) :
  0 < c ->
  1 <= NumNodes stats ->
  GoInt.inRange (NumNodes stats + c) ->
  0 <= Paginator.Page (paginator u) ->
  GoInt.inRange (Paginator.Page (paginator u) * c + c) ->
  Paginator.Page (paginator u) * c <> NumNodes stats ->
  0 <= current u ->
  exists u' : UIModel,
    repair u stats c = Ok u'
    /\ Paginator.Page (paginator u')
       = (if NumNodes stats <? Paginator.Page (paginator u) * c
          then (NumNodes stats + c - 1) / c - 1
          else Paginator.Page (paginator u))
    /\ Paginator.TotalPages (paginator u') = (NumNodes stats + c - 1) / c
    /\ 0 <= Paginator.Page (paginator u') < Paginator.TotalPages (paginator u')
    /\ start u' = Paginator.Page (paginator u') * c
    /\ end_ u' = Z.min (start u' + c) (NumNodes stats)
    /\ 0 <= start u' < end_ u'
    /\ current u' = Z.min (current u) (end_ u' - start u' - 1).
Proof.
  intros Hc HN Hrange HP HPc Hne Hcur.
  set (N := NumNodes stats) in *. set (P := Paginator.Page (paginator u)) in *.
  set (q := (N + c - 1) / c).
  assert (c * q <= N + c - 1 < c * q + c) as Hq.
  { pose proof (Z.div_mod (N + c - 1) c ltac:(lia)) as Hdm.
    pose proof (Z.mod_pos_bound (N + c - 1) c Hc) as Hmod.
    fold q in Hdm. lia. }
  assert (1 <= q) as Hq1 by nia.
  assert (q <= N) as HqN by nia.
  unfold repair.
  rewrite SetTotalPages_ceiling
    by (cbn [Paginator.PerPage Paginator.setPerPage]; int_range).
  run_bind.
  cbn [Paginator.Page Paginator.PerPage Paginator.TotalPages
       Paginator.setTotalPages Paginator.setPerPage].
  fold P N q.
  assert (GoInt.inRange (P * c)) as HPc0 by (clear Hq; int_range).
  rewrite (mul_exact P c HPc0).
  destruct (Z.ltb_spec N (P * c)) as [Hbeyond|Hwithin].
  - rewrite (sub_exact q 1) by int_range.
    unfold Paginator.GetSliceBounds.
    cbn [Paginator.Page Paginator.PerPage Paginator.TotalPages
         Paginator.setPage Paginator.setTotalPages Paginator.setPerPage].
    assert (0 <= (q - 1) * c < N) as Hstart by nia.
    rewrite (mul_exact (q - 1) c) by int_range.
    rewrite (add_exact ((q - 1) * c) c) by int_range.
    cbn [set_bounds set_paginator start end_ current fst snd].
    set (e := Z.min ((q - 1) * c + c) N).
    assert ((q - 1) * c < e <= N) as He by (subst e; lia).
    rewrite (sub_exact e ((q - 1) * c)) by int_range.
    destruct (Z.leb_spec (e - (q - 1) * c) (current u)).
    + eexists. split; [reflexivity|].
      cbn [set_current set_bounds set_paginator paginator start end_ current
           fst snd Paginator.Page Paginator.TotalPages Paginator.setPage
           Paginator.setTotalPages Paginator.setPerPage].
      fold e. rewrite sub_exact by int_range.
      repeat split; try lia.
    + eexists. split; [reflexivity|].
      cbn [set_current set_bounds set_paginator paginator start end_ current
           fst snd Paginator.Page Paginator.TotalPages Paginator.setPage
           Paginator.setTotalPages Paginator.setPerPage].
      fold e. repeat split; try lia.
  - unfold Paginator.GetSliceBounds.
    cbn [Paginator.Page Paginator.PerPage Paginator.TotalPages
         Paginator.setPage Paginator.setTotalPages Paginator.setPerPage].
    fold P. rewrite (mul_exact P c HPc0).
    rewrite (add_exact (P * c) c) by int_range.
    cbn [set_bounds set_paginator start end_ current fst snd].
    set (e := Z.min (P * c + c) N).
    assert (P * c < e <= N) as He by (subst e; lia).
    assert (P < q) as HPq by nia.
    rewrite (sub_exact e (P * c)) by int_range.
    destruct (Z.leb_spec (e - P * c) (current u)).
    + eexists. split; [reflexivity|].
      cbn [set_current set_bounds set_paginator paginator start end_ current
           fst snd Paginator.Page Paginator.TotalPages Paginator.setPage
           Paginator.setTotalPages Paginator.setPerPage].
      fold P e. rewrite sub_exact by int_range.
      repeat split; try lia.
    + eexists. split; [reflexivity|].
      cbn [set_current set_bounds set_paginator paginator start end_ current
           fst snd Paginator.Page Paginator.TotalPages Paginator.setPage
           Paginator.setTotalPages Paginator.setPerPage].
      fold P e. repeat split; try lia.
Qed.

(** The repair of a frame, when it works: with a positive capacity, a page
    that does not start exactly at the node count and a cursor that is at
    least 0, the page ends within the pages (a page beyond the nodes
    becomes the last page), the visible set is non-empty, at most the
    capacity long and within the nodes, and the cursor is the old cursor
    clamped to the last visible index, hence within [0, visibleCount-1]. *)
Theorem repair_puts_the_cursor_in_range
        (u : UIModel) (stats : Stats) (c : Z) :
  0 < c ->
  1 <= NumNodes stats ->
  GoInt.inRange (NumNodes stats + c) ->
  0 <= Paginator.Page (paginator u) ->
  GoInt.inRange (Paginator.Page (paginator u) * c + c) ->
  Paginator.Page (paginator u) * c <> NumNodes stats ->
  0 <= current u ->
  exists u' : UIModel,
    repair u stats c = Ok u'
    /\ 0 <= Paginator.Page (paginator u') < Paginator.TotalPages (paginator u')
    /\ (NumNodes stats < Paginator.Page (paginator u) * c ->
        Paginator.Page (paginator u') = Paginator.TotalPages (paginator u') - 1)
    /\ (Paginator.Page (paginator u) * c < NumNodes stats ->
        Paginator.Page (paginator u') = Paginator.Page (paginator u))
    /\ 0 <= start u' < end_ u' /\ end_ u' <= NumNodes stats
    /\ end_ u' - start u' <= c
    /\ 0 <= current u' <= end_ u' - start u' - 1
    /\ current u' = Z.min (current u) (end_ u' - start u' - 1).
Proof.
  intros Hc HN Hrange HP HPc Hne Hcur.
  destruct (repair_in_range u stats c Hc HN Hrange HP HPc Hne Hcur)
    as (u' & Hr & Hpage & Htotal & Hwithin & Hs & He & Hse & Hcur').
  exists u'. split; [exact Hr|]. split; [exact Hwithin|].
  repeat apply conj; try lia.
  - intros Hb. rewrite Hpage, Htotal.
    now destruct (Z.ltb_spec (NumNodes stats)
                             (Paginator.Page (paginator u) * c)); [|lia].
  - intros Hb. rewrite Hpage.
    now destruct (Z.ltb_spec (NumNodes stats)
                             (Paginator.Page (paginator u) * c)); [lia|].
Qed.

(** A frame makes the confirm key safe: drawn with a positive capacity,
    a page that does not start exactly at the node count and a cursor that
    is at least 0, over a snapshot whose node count is the length of its
    node list, [View] succeeds and leaves a model in which [SelectedNode]
    returns the node at [start + current] of the sorted nodes. *)
Theorem View_makes_the_lookup_safe (u : UIModel) (c : Z) :
  NumNodes (UIModel_Stats u)
  = Z.of_nat (List.length (Nodes (UIModel_Stats u))) ->
  viewCapacity u = Ok c ->
  0 < c ->
  GoInt.inRange (NumNodes (UIModel_Stats u) + c) ->
  0 <= Paginator.Page (paginator u) ->
  GoInt.inRange (Paginator.Page (paginator u) * c + c) ->
  Paginator.Page (paginator u) * c <> NumNodes (UIModel_Stats u) ->
  0 <= current u ->
  exists (u' : UIModel) (text : string) (n : Node),
    View u = Ok (u', text)
    /\ 0 <= current u' < end_ u' - start u'
    /\ SelectedNode u' = Ok n
    /\ nth_error (Nodes (UIModel_Stats u))
                 (Z.to_nat (start u' + current u')) = Some n.
Proof.
  intros HN Hcap Hc Hrange HP HPc Hne Hcur.
  set (stats := UIModel_Stats u) in *.
  assert (1 <= NumNodes stats) as HN1.
  { unfold viewCapacity in Hcap. fold stats in Hcap.
    destruct (Nodes stats); [discriminate Hcap|].
    rewrite HN. cbn [List.length]. lia. }
  destruct (repair_in_range (set_ShowPercentage u true) stats c
              Hc HN1 Hrange HP HPc Hne Hcur)
    as (u1 & Hr & _ & _ & _ & Hs & He & Hse & Hcur').
  cbn [current set_ShowPercentage] in Hcur'.
  assert (UIModel_Stats u1 = stats) as Hstats.
  { apply repair_spec in Hr as (_ & _ & _ & Hframe).
    unfold stats, UIModel_Stats.
    replace (cluster u1) with (cluster u)
      by (change (cluster u) with (cluster (set_ShowPercentage u true));
          now rewrite <- Hframe).
    replace (nodeSorter u1) with (nodeSorter u)
      by (change (nodeSorter u) with (nodeSorter (set_ShowPercentage u true));
          now rewrite <- Hframe).
    reflexivity. }
  assert (exists n : Node,
             nth_error (Nodes stats) (Z.to_nat (start u1 + current u1))
             = Some n) as [n Hn].
  { destruct (nth_error (Nodes stats) (Z.to_nat (start u1 + current u1)))
      as [n|] eqn:Hnth; [eauto|].
    apply nth_error_None in Hnth. lia. }
  assert (visibleRows u1 stats
          = Ok (firstn (Z.to_nat (end_ u1 - start u1))
                       (skipn (Z.to_nat (start u1)) (Nodes stats))))
    as Hrows.
  { unfold visibleRows, slice.
    destruct (Z.leb_spec 0 (start u1)); [|lia].
    destruct (Z.leb_spec (start u1) (end_ u1)); [|lia].
    destruct (Z.leb_spec (end_ u1) (Z.of_nat (List.length (Nodes stats))));
      [reflexivity|lia]. }
  assert (NumNodes stats <> 0) as Hne0 by lia.
  eexists (Keys u1), _, n. split.
  - rewrite View_nodes by exact Hne0. fold stats.
    unfold viewNodes. unfold viewCapacity in Hcap. fold stats in Hcap.
    rewrite Hcap. run_bind. rewrite Hr. run_bind. rewrite Hrows. run_bind.
    reflexivity.
  - destruct (Keys_selection u1) as (HKs & HKe & HKc & _).
    assert (UIModel_Stats (Keys u1) = stats) as HstatsK.
    { rewrite <- Hstats. unfold UIModel_Stats, Keys.
      now destruct (copyInstanceID u1). }
    rewrite HKs, HKe, HKc. split; [lia|]. split; [|exact Hn].
    apply SelectedNode_lookup. rewrite HstatsK, HKs, HKe, HKc.
    repeat split; try lia. exact Hn.
Qed.

End RangeFacts.

Lemma repair_of_the_last_page_over_three_nodes :
  exists u' : UIModel,
    repair Sample.last_page (Sample.statsOf (Sample.nodes 3)) 2 = Ok u'
    /\ Paginator.Page (paginator Sample.last_page) = 2
    /\ Paginator.Page (paginator u')
       = Paginator.TotalPages (paginator u') - 1
    /\ 0 <= current u' <= end_ u' - start u' - 1.
Proof.
  destruct (repair_puts_the_cursor_in_range
              Sample.last_page (Sample.statsOf (Sample.nodes 3)) 2)
    as (u' & Hrepair & _ & Hlast & _ & _ & _ & _ & Hcur & _).
  - lia.
  - vm_compute. discriminate.
  - vm_compute. split; discriminate.
  - vm_compute. discriminate.
  - vm_compute. split; discriminate.
  - vm_compute. discriminate.
  - vm_compute. discriminate.
  - exists u'. split; [exact Hrepair|]. split; [vm_compute; reflexivity|].
    split; [|exact Hcur]. apply Hlast. vm_compute. reflexivity.
Defined.

Lemma confirm_is_safe_after_a_frame_of_browsing :
  exists (u' : UIModel) (text : string) (n : Node),
    @View Sample.libs Sample.theme Sample.browsing = Ok (u', text)
    /\ 0 <= current u' < end_ u' - start u'
    /\ @SelectedNode Sample.libs u' = Ok n
    /\ nth_error (Nodes (@UIModel_Stats Sample.libs Sample.browsing))
                 (Z.to_nat (start u' + current u')) = Some n.
Proof.
  apply (@View_makes_the_lookup_safe Sample.libs Sample.theme
           Sample.browsing 2).
  - vm_compute. reflexivity.
  - vm_compute. reflexivity.
  - lia.
  - vm_compute. split; discriminate.
  - vm_compute. discriminate.
  - vm_compute. split; discriminate.
  - vm_compute. discriminate.
  - vm_compute. discriminate.
Defined.

(** ** NodeSorter: suffixes and creation order *)

Section SorterFacts.
Context {L : Libs}.

Lemma asc_suffixed_key_is_a_label (key suffix : string) :
  suffix = "=asc" \/ suffix = "=dsc" ->
  String.eqb (key +:+ suffix) "creation" = false.
Proof.
  intros Hs. destruct (String.eqb_spec (key +:+ suffix) "creation")
    as [Heq|]; [|reflexivity].
  assert (HasSuffix (key +:+ suffix) suffix = true) as Hhas
    by (destruct Hs as [-> | ->]; now rewrite HasSuffix_app4).
  rewrite Heq in Hhas. destruct Hs as [-> | ->]; discriminate Hhas.
Qed.

Lemma labelLess_negb (key : string) (lhs rhs : Node) :
  labelLess negb key lhs rhs = negb (labelLess (fun b => b) key lhs rhs).
Proof. unfold labelLess. now destruct (String.eqb _ _). Qed.

(** The direction suffixes are cut at most once each, [=asc] first: a
    specification ending in [=dsc=asc] sorts as the one ending in [=dsc],
    while what precedes a final [=dsc] (or a second [=asc]) is taken whole
    as a label name, so that [creation=asc=dsc] is not a creation order
    but the inverted order of a label called [creation=asc]. *)
Theorem direction_suffixes_are_cut_once (key : string) (lhs rhs : Node) :
  makeNodeSorter (key +:+ "=dsc=asc") lhs rhs
  = makeNodeSorter (key +:+ "=dsc") lhs rhs
  /\ makeNodeSorter (key +:+ "=asc=dsc") lhs rhs
     = negb (labelLess (fun b => b) (key +:+ "=asc") lhs rhs)
  /\ makeNodeSorter (key +:+ "=asc=asc") lhs rhs
     = labelLess (fun b => b) (key +:+ "=asc") lhs rhs
  /\ makeNodeSorter (key +:+ "=dsc=dsc") lhs rhs
     = negb (labelLess (fun b => b) (key +:+ "=dsc") lhs rhs).
Proof.
  change "=dsc=asc" with ("=dsc" +:+ "=asc").
  change "=asc=dsc" with ("=asc" +:+ "=dsc").
  change "=asc=asc" with ("=asc" +:+ "=asc").
  change "=dsc=dsc" with ("=dsc" +:+ "=dsc").
  rewrite <- !append_assoc. repeat apply conj.
  - unfold makeNodeSorter at 1, sortDirection.
    rewrite (HasSuffix_app4 (key +:+ "=dsc") "=asc" "=asc") by reflexivity.
    cbn [String.eqb Ascii.eqb Bool.eqb]. cbv iota.
    rewrite dropLast4_app4 by reflexivity.
    rewrite (HasSuffix_app4 key "=dsc" "=dsc") by reflexivity.
    cbn [String.eqb Ascii.eqb Bool.eqb]. cbv iota.
    rewrite dropLast4_app4 by reflexivity.
    unfold makeNodeSorter. now rewrite sortDirection_dsc.
  - rewrite makeNodeSorter_dsc. unfold comparatorFor.
    now rewrite asc_suffixed_key_is_a_label by auto.
  - rewrite makeNodeSorter_asc
      by (now rewrite (HasSuffix_app4 key "=asc" "=dsc")).
    unfold comparatorFor.
    now rewrite asc_suffixed_key_is_a_label by auto.
  - rewrite makeNodeSorter_dsc. unfold comparatorFor.
    now rewrite asc_suffixed_key_is_a_label by auto.
Qed.

(** Sorting by creation puts the newer of two nodes first whatever their
    names: for nodes created at different instants the comparator holds
    exactly when the left node is the newer one, it holds in one direction
    only, and [creation=dsc] puts the older node first. *)
Theorem creation_sorter_puts_the_newer_node_first (lhs rhs : Node) :
  Created lhs <> Created rhs ->
  makeNodeSorter "creation" lhs rhs = (Created rhs <? Created lhs)
  /\ makeNodeSorter "creation" lhs rhs
     = negb (makeNodeSorter "creation" rhs lhs)
  /\ makeNodeSorter "creation=dsc" lhs rhs = (Created lhs <? Created rhs).
Proof.
  intros Hne.
  assert (forall a b : Node,
             Created a <> Created b ->
             makeNodeSorter "creation" a b = (Created b <? Created a))
    as Hplain.
  { intros a b Hab. rewrite makeNodeSorter_plain by reflexivity.
    change (comparatorFor (fun b : bool => b) "creation")
      with (creationLess (fun b : bool => b)).
    unfold creationLess.
    now destruct (Z.eqb_spec (Created a) (Created b)). }
  repeat apply conj.
  - now apply Hplain.
  - rewrite !Hplain by congruence.
    destruct (Z.ltb_spec (Created rhs) (Created lhs));
      destruct (Z.ltb_spec (Created lhs) (Created rhs)); cbn; lia.
  - change "creation=dsc" with ("creation" +:+ "=dsc").
    rewrite makeNodeSorter_dsc, <- makeNodeSorter_plain by reflexivity.
    rewrite Hplain by exact Hne.
    destruct (Z.ltb_spec (Created rhs) (Created lhs));
      destruct (Z.ltb_spec (Created lhs) (Created rhs)); cbn; lia.
Qed.

End SorterFacts.

Lemma creation_sorter_on_newest_and_second :
  @makeNodeSorter Sample.libs "creation" Sample.newest Sample.second
  = (Created Sample.second <? Created Sample.newest)
  /\ @makeNodeSorter Sample.libs "creation" Sample.newest Sample.second
     = negb (@makeNodeSorter Sample.libs "creation"
               Sample.second Sample.newest)
  /\ @makeNodeSorter Sample.libs "creation=dsc" Sample.newest Sample.second
     = (Created Sample.newest <? Created Sample.second).
Proof.
  apply creation_sorter_puts_the_newer_node_first. vm_compute. discriminate.
Defined.

(** ** PaginationEngine: how the capacity depends on the height *)

Section HeightFacts.
Context {L : Libs} {T : Theme}.

Lemma writeNodeLines_size (u : UIModel) (w h : Z) (n : Node) (i : Z)
      (first : bool) (rs : list string) :
  writeNodeLines (set_size u w h) n i first rs = writeNodeLines u n i first rs.
Proof.
  revert first. induction rs as [|res rs IH]; intros first; [reflexivity|].
  cbn [writeNodeLines]. now rewrite IH.
Qed.

(** The value of the capacity for a window that is at least 0 high. *)
Lemma computeItemsPerPage_value
      (u : UIModel) (n0 : Node) (rest : list Node) (b : string) :
  0 <= height u <= GoInt.maxInt ->
  countNewlines b + 2 <= GoInt.maxInt ->
  let lines := countNewlines (writeNodeInfo u n0 (resources (cluster u)) 0) in
  let perNode := if lines =? 0 then 1 else lines in
  0 < perNode
  /\ computeItemsPerPage u (n0 :: rest) b
     = Ok (Z.quot (height u - (countNewlines b + 2)) perNode - 1).
Proof.
  intros Hh Hb lines perNode.
  pose proof (countNewlines_nonneg b) as Hb0.
  pose proof (countNewlines_nonneg
                (writeNodeInfo u n0 (resources (cluster u)) 0)) as Hl0.
  fold lines in Hl0.
  assert (0 < perNode) as Hper
    by (subst perNode; destruct (Z.eqb_spec lines 0); lia).
  split; [exact Hper|].
  unfold computeItemsPerPage.
  change (index (n0 :: rest) 0) with (Ok n0). run_bind.
  fold lines. fold perNode. unfold quo.
  destruct (Z.eqb_spec perNode 0) as [H0|_]; [lia|]. run_bind.
  rewrite (add_exact (countNewlines b) 2) by int_range.
  rewrite (sub_exact (height u) (countNewlines b + 2)) by int_range.
  pose proof (quot_range (height u - (countNewlines b + 2)) perNode Hper)
    as Hq.
  rewrite (wrap_inRange
             (Z.quot (height u - (countNewlines b + 2)) perNode))
    by int_range.
  now rewrite sub_exact by int_range.
Qed.

(** A higher window never shows fewer rows: for the same text and nodes
    the capacity does not shrink when the height grows (the width plays no
    part). *)
Theorem capacity_grows_with_the_height
        (u : UIModel) (w1 h1 w2 h2 : Z) (nodes : list Node) (b : string) :
  nodes <> [] ->
  0 <= h1 <= h2 -> h2 <= GoInt.maxInt ->
  countNewlines b + 2 <= GoInt.maxInt ->
  exists c1 c2 : Z,
    computeItemsPerPage (set_size u w1 h1) nodes b = Ok c1
    /\ computeItemsPerPage (set_size u w2 h2) nodes b = Ok c2
    /\ c1 <= c2.
Proof.
  intros Hne Hh Hmax Hb. destruct nodes as [|n0 rest]; [contradiction|].
  destruct (computeItemsPerPage_value (set_size u w1 h1) n0 rest b)
    as [Hper1 Hc1]; [cbn; lia|exact Hb|].
  destruct (computeItemsPerPage_value (set_size u w2 h2) n0 rest b)
    as [Hper2 Hc2]; [cbn; lia|exact Hb|].
  unfold writeNodeInfo in *. rewrite writeNodeLines_size in *.
  cbn [height set_size cluster] in *.
  eexists _, _. split; [exact Hc1|]. split; [exact Hc2|].
  apply Z.sub_le_mono_r, Z.quot_le_mono; lia.
Qed.

(** Where the capacity changes sign, for a window at least 0 high over a
    header of [header] lines and nodes of [perNode] lines: rows are shown
    (capacity above 0) exactly when the height holds the header and two
    node blocks, the capacity is 0 exactly when it holds the header and
    one block but not two, and it is negative below that. *)
Theorem capacity_thresholds
        (u : UIModel) (nodes : list Node) (n0 : Node) (b : string) (c : Z) :
  computeItemsPerPage u nodes b = Ok c ->
  index nodes 0 = Ok n0 ->
  0 <= height u <= GoInt.maxInt ->
  countNewlines b + 2 <= GoInt.maxInt ->
  let header := countNewlines b + 2 in
  let lines := countNewlines (writeNodeInfo u n0 (resources (cluster u)) 0) in
  let perNode := if lines =? 0 then 1 else lines in
  (0 < c <-> header + 2 * perNode <= height u)
  /\ (c = 0 <-> header + perNode <= height u < header + 2 * perNode)
  /\ (c < 0 <-> height u < header + perNode).
Proof.
  intros Hcap Hn0 Hh Hb header lines perNode.
  destruct nodes as [|n rest]; [discriminate Hn0|].
  assert (n = n0) as -> by (now injection Hn0).
  destruct (computeItemsPerPage_value u n0 rest b Hh Hb) as [Hper Hval].
  fold lines perNode header in Hper, Hval.
  rewrite Hval in Hcap. injection Hcap as <-.
  destruct (Z_lt_le_dec (height u - header) 0) as [Hneg|Hpos].
  - assert (Z.quot (height u - header) perNode <= 0) as Hq.
    { replace (height u - header) with (- (header - height u)) by lia.
      rewrite Z.quot_opp_l by lia. rewrite Z.quot_div_nonneg by lia.
      pose proof (Z.div_pos (header - height u) perNode). lia. }
    repeat split; intros; lia.
  - rewrite Z.quot_div_nonneg by lia.
    pose proof (Z.div_mod (height u - header) perNode ltac:(lia)) as Hdm.
    pose proof (Z.mod_pos_bound (height u - header) perNode Hper) as Hmod.
    repeat split; intros; nia.
Qed.

End HeightFacts.

Lemma capacity_of_browsing_at_heights_8_and_20 :
  exists c1 c2 : Z,
    @computeItemsPerPage Sample.libs Sample.theme
      (set_size Sample.browsing 80 8) (Sample.nodes 5)
      (@viewHeader Sample.libs Sample.theme Sample.browsing) = Ok c1
    /\ @computeItemsPerPage Sample.libs Sample.theme
         (set_size Sample.browsing 80 20) (Sample.nodes 5)
         (@viewHeader Sample.libs Sample.theme Sample.browsing) = Ok c2
    /\ c1 <= c2.
Proof.
  apply capacity_grows_with_the_height.
  - discriminate.
  - lia.
  - vm_compute. discriminate.
  - vm_compute. discriminate.
Defined.

Lemma browsing_holds_the_header_and_two_nodes :
  let header :=
    countNewlines (@viewHeader Sample.libs Sample.theme Sample.browsing) + 2 in
  let lines :=
    countNewlines
      (@writeNodeInfo Sample.libs Sample.theme Sample.browsing
         (Sample.node "node-5" "i-5" 5 false)
         (resources (cluster Sample.browsing)) 0) in
  header + 2 * (if lines =? 0 then 1 else lines) <= height Sample.browsing.
Proof.
  destruct (@capacity_thresholds Sample.libs Sample.theme
              Sample.browsing
              (Nodes (@UIModel_Stats Sample.libs Sample.browsing))
              (Sample.node "node-5" "i-5" 5 false)
              (@viewHeader Sample.libs Sample.theme Sample.browsing) 2)
    as (Hrows & _).
  - vm_compute. reflexivity.
  - vm_compute. reflexivity.
  - vm_compute. split; discriminate.
  - vm_compute. discriminate.
  - apply Hrows. lia.
Defined.

(** ** EventLoop: what a run never changes *)

Section LoopFacts.
Context {L : Libs} {T : Theme}.

Lemma Keys_help_text (u : UIModel) :
  keys_EnterHelp (Keys u)
  = if copyInstanceID u
    then if String.eqb (nodeExec u) ""
         then "copy instance id"
         else "copy instance id (run NODE_EXEC cmd)"
    else keys_EnterHelp u.
Proof.
  unfold Keys. destruct (copyInstanceID u); [|reflexivity].
  now destruct (String.eqb (nodeExec u) "").
Qed.

Lemma View_help (u u' : UIModel) (text : string) :
  View u = Ok (u', text) -> keys_EnterHelp u' = keys_EnterHelp (Keys u).
Proof.
  intros HV.
  assert (exists u1 : UIModel,
             u' = Keys u1
             /\ copyInstanceID u1 = copyInstanceID u
             /\ nodeExec u1 = nodeExec u
             /\ keys_EnterHelp u1 = keys_EnterHelp u)
    as (u1 & -> & Hcopy & Hexec & Hhelp).
  { apply View_result in HV as [[_ ->]|(_ & c & u1 & rows & _ & Hr & _ & ->)].
    - exists (set_ShowPercentage u true). now destruct u.
    - exists u1. split; [reflexivity|].
      apply repair_spec in Hr as (_ & _ & _ & Hr).
      assert (forall v w : UIModel,
                 set_current
                   (set_bounds (set_paginator u1 (paginator v))
                               (start v, end_ v)) (current v) = w ->
                 copyInstanceID u1 = copyInstanceID w
                 /\ nodeExec u1 = nodeExec w
                 /\ keys_EnterHelp u1 = keys_EnterHelp w) as Hsame
        by (intros v w <-; repeat split).
      apply Hsame in Hr. exact Hr. }
  rewrite !Keys_help_text. now rewrite Hcopy, Hexec, Hhelp.
Qed.

(** One event of the loop: what it keeps and what it sets. *)
Lemma step_frame (u u' : UIModel) (ev : Event) (continue : bool) :
  step u ev = Ok (u', continue) ->
  extraLabels u' = extraLabels u
  /\ nodeSorter u' = nodeSorter u
  /\ copyInstanceID u' = copyInstanceID u
  /\ nodeExec u' = nodeExec u
  /\ resources (cluster u') = resources (cluster u)
  /\ progress_ShowPercentage u' = true
  /\ keys_EnterHelp u' = keys_EnterHelp (Keys u).
Proof.
  intros Hstep. destruct ev as [msg|stats]; cbn [step] in Hstep.
  - destruct (Update u msg) as [[[u1 cmd] effects]|] eqn:HU;
      [|discriminate Hstep].
    cbn [mbind Result_bind] in Hstep.
    destruct (View u1) as [[u2 text]|] eqn:HV; [|discriminate Hstep].
    cbn [mbind Result_bind] in Hstep. injection Hstep as <- _.
    pose proof (View_help _ _ _ HV) as Hhelp.
    apply Update_frame in HU
      as (Hc & Hl & Hs & Hcopy & Hexec & _ & Hk & _).
    apply View_frame in HV
      as (Hc' & _ & _ & Hl' & Hs' & _ & Hcopy' & Hexec' & Hflag).
    rewrite Hhelp, !Keys_help_text, Hcopy, Hexec, Hk.
    repeat apply conj; try reflexivity; congruence.
  - destruct (View (withSnapshot u stats)) as [[u2 text]|] eqn:HV;
      [|discriminate Hstep].
    cbn [mbind Result_bind] in Hstep. injection Hstep as <- _.
    pose proof (View_help _ _ _ HV) as Hhelp.
    apply View_frame in HV
      as (Hc' & _ & _ & Hl' & Hs' & _ & Hcopy' & Hexec' & Hflag).
    rewrite Hhelp, !Keys_help_text.
    repeat apply conj; try assumption; try reflexivity.
    now rewrite Hc'.
Qed.

(** Along a run of the event loop the settings the model was created with
    stay what they were: the extra labels, the sorter, the copy mode, the
    command template and the tracked resources (snapshots replace the
    nodes only).  Once an event has been processed the gauge shows
    percentages, and the help of the confirm key is a function of the copy
    mode and the template alone: in the mode that copies names it is the
    text the model started with, whether or not a command template is set,
    and the hint at the command appears only in the mode that copies
    instance ids. *)
Theorem run_keeps_the_settings
        (u u' : UIModel) (evs : list Event) :
  run u evs = Ok u' ->
  extraLabels u' = extraLabels u
  /\ nodeSorter u' = nodeSorter u
  /\ copyInstanceID u' = copyInstanceID u
  /\ nodeExec u' = nodeExec u
  /\ resources (cluster u') = resources (cluster u)
  /\ (evs <> [] ->
      progress_ShowPercentage u' = true
      /\ keys_EnterHelp u'
         = if copyInstanceID u
           then if String.eqb (nodeExec u) ""
                then "copy instance id"
                else "copy instance id (run NODE_EXEC cmd)"
           else keys_EnterHelp u).
Proof.
  revert u. induction evs as [|ev rest IH]; intros u Hrun.
  - cbn [run] in Hrun. injection Hrun as <-.
    repeat apply conj; try reflexivity. intros Hne. now destruct Hne.
  - cbn [run] in Hrun.
    destruct (step u ev) as [[u1 continue]|] eqn:Hstep;
      [|discriminate Hrun].
    cbn [mbind Result_bind] in Hrun.
    apply step_frame in Hstep
      as (Hl & Hs & Hcopy & Hexec & Hres & Hflag & Hhelp).
    rewrite Keys_help_text in Hhelp.
    destruct continue.
    + destruct rest as [|ev' rest'].
      * cbn [run] in Hrun. injection Hrun as <-.
        repeat apply conj; try assumption. intros _. now split.
      * apply IH in Hrun as (Hl' & Hs' & Hcopy' & Hexec' & Hres' & Hlater).
        destruct Hlater as [Hflag' Hhelp']; [discriminate|].
        repeat apply conj; try congruence. intros _.
        split; [exact Hflag'|].
        rewrite Hhelp', Hcopy, Hexec, Hhelp.
        now destruct (copyInstanceID u).
    + injection Hrun as <-.
      repeat apply conj; try assumption. intros _. now split.
Qed.

End LoopFacts.

Lemma settings_after_the_run_to_onFargate :
  @run Sample.libs Sample.theme Sample.freshExec
       [Sample.resize 9; Snapshot Sample.mixed] = Ok Sample.onFargate
  /\ nodeExec Sample.onFargate = nodeExec Sample.freshExec
  /\ keys_EnterHelp Sample.onFargate = "copy instance id (run NODE_EXEC cmd)".
Proof.
  assert (@run Sample.libs Sample.theme Sample.freshExec
               [Sample.resize 9; Snapshot Sample.mixed]
          = Ok Sample.onFargate) as Hrun by (vm_compute; reflexivity).
  split; [exact Hrun|].
  destruct (@run_keeps_the_settings Sample.libs Sample.theme _ _ _ Hrun)
    as (_ & _ & _ & Hexec & _ & Hlater).
  split; [exact Hexec|].
  destruct Hlater as [_ Hhelp]; [discriminate|]. exact Hhelp.
Defined.

(** ** ActionDispatcher: the node the confirm key names *)

Section SnapshotFacts.
Context {L : Libs}.

(** The confirm key never names anything but a node of the current
    snapshot: when [sort.Slice] rearranges the nodes and the key is handled
    without a panic, the model is unchanged and there is a node of the
    snapshot whose name (or instance id, in that mode) is either the one
    text written to the clipboard, with no command, or the operand of the
    one shell command started, with nothing written to the clipboard. *)
Theorem confirm_names_a_node_of_the_snapshot
        (u u' : UIModel) (cmd : Cmd) (effects : list Effect) :
  Permutation (Nodes (Cluster_Stats (cluster u))) (Nodes (UIModel_Stats u)) ->
  Update u (KeyMsg "enter") = Ok (u', cmd, effects) ->
  u' = u
  /\ exists n : Node,
      In n (Nodes (Cluster_Stats (cluster u)))
      /\ SelectedNode u = Ok n
      /\ ((cmd = nilCmd /\ effects = [ClipboardWrite (payloadOf u n)])
          \/ (cmd = ExecProcess "/bin/sh"
                      ["-c"; fmt_Sprintf (nodeExec u) (payloadOf u n)]
                      execFinished
              /\ effects = [])).
Proof.
  intros Hperm HU. rewrite Update_enter in HU.
  destruct (SelectedNode u) as [n|p] eqn:Hn.
  2: { unfold openNode, SelectedNodeName in HU. rewrite Hn in HU.
       discriminate HU. }
  assert (In n (Nodes (Cluster_Stats (cluster u)))) as Hin.
  { apply (Permutation_in n (Permutation_sym Hperm)).
    unfold SelectedNode in Hn. apply slice_index in Hn as (_ & _ & _ & Hnth).
    now apply nth_error_In in Hnth. }
  assert (nodeExec u = "" \/ payloadOf u n = "" \/ IsFargate n = true
          \/ (nodeExec u <> "" /\ payloadOf u n <> ""
              /\ IsFargate n = false)) as Hcases.
  { destruct (String.eqb_spec (nodeExec u) ""); [tauto|].
    destruct (String.eqb_spec (payloadOf u n) ""); [tauto|].
    destruct (IsFargate n); tauto. }
  assert (forall H : nodeExec u = "" \/ payloadOf u n = ""
                     \/ IsFargate n = true,
             u' = u /\ cmd = nilCmd
             /\ effects = [ClipboardWrite (payloadOf u n)]) as Hcopy.
  { intros H. rewrite (openNode_copy u _ n Hn H) in HU.
    destruct clipboard_Init; [discriminate HU|].
    cbn [mbind Result_bind] in HU. injection HU as <- <- <-. auto. }
  destruct Hcases as [H|[H|[H|(He & Hp & Hf)]]];
    try (destruct Hcopy as (-> & -> & ->); [tauto|];
         split; [reflexivity|]; exists n; auto).
  rewrite (openNode_exec u _ n Hn He Hp Hf) in HU.
  cbn [mbind Result_bind] in HU. injection HU as <- <- <-.
  split; [reflexivity|]. exists n. auto.
Qed.

End SnapshotFacts.

Lemma confirm_on_the_instance_names_a_node_of_the_snapshot :
  exists n : Node,
    In n (Nodes (Cluster_Stats (cluster Sample.onInstance)))
    /\ @SelectedNode Sample.libs Sample.onInstance = Ok n
    /\ @Update Sample.libs Sample.onInstance (KeyMsg "enter")
       = Ok (Sample.onInstance,
             ExecProcess "/bin/sh"
               ["-c"; @fmt_Sprintf Sample.libs (nodeExec Sample.onInstance)
                        (payloadOf Sample.onInstance n)]
               execFinished, []).
Proof.
  assert (exists (cmd : Cmd) (effects : list Effect),
             @Update Sample.libs Sample.onInstance (KeyMsg "enter")
             = Ok (Sample.onInstance, cmd, effects)
             /\ effects = []) as (cmd & effects & HU & Heff)
    by (eexists _, _; vm_compute; split; reflexivity).
  destruct (@confirm_names_a_node_of_the_snapshot Sample.libs
              Sample.onInstance _ _ _ (Permutation_refl _) HU)
    as (_ & n & Hin & Hn & [[_ Hclip]|[-> _]]).
  - rewrite Heff in Hclip. discriminate Hclip.
  - exists n. rewrite Heff in HU.
    split; [exact Hin|]. split; [exact Hn|exact HU].
Defined.
